(** * yt_downloder.py: a shallow embedding and its verified properties

    The program drives the external tool [yt-dlp]: it asks for the metadata of
    a video, lists the available formats, downloads one of them while turning
    the tool's percentage lines into progress-bar updates, and names the
    result after the sanitized title.

    Python values are embedded as follows.
    - [str] is a list of Unicode code points ([list N]); the character classes
      that Python takes from the Unicode database ([str.isalnum], [str.isspace],
      the decimal digits of [int], [float] and [\d]) are fixed on ASCII and
      left to a parameter ([UnicodeDB]) above U+007F.
    - [int] is [Z]; [float] is IEEE binary64, computed with the reference
      implementation [SpecFloat] (precision 53, emax 1024, nearest-even).
    - exceptions are the [Raise] results of [result].
    - the external tool, [json.loads], the date conversion of [datetime], the
      file system and the console are the collaborators of [Externals] and
      the components of [world]. *)

From Stdlib Require Import ZArith NArith QArith List Bool Lia String Ascii.
From Stdlib Require Import SpecFloat.
From stdpp Require Import base option list gmap.

#[local] Open Scope Z_scope.

(** ** Exceptions and results *)

Inductive exn : Type :=
  | ValueError
  | TypeError
  | OverflowError
  | IndexError
  | KeyError
  | AttributeError
  | FileNotFoundError.

Inductive result (A : Type) : Type :=
  | Ok (a : A)
  | Raise (e : exn).

Arguments Ok {A} a.
Arguments Raise {A} e.

#[export] Instance result_ret : MRet result := fun _ a => Ok a.
#[export] Instance result_bind : MBind result := fun _ _ f m =>
  match m with
  | Ok a => f a
  | Raise e => Raise e
  end.

(** ** Text *)

Abbreviation pystr := (list N).

(** A string literal of the source (ASCII text). *)
Definition lit (s : string) : pystr := map N_of_ascii (list_ascii_of_string s).

(** The part of the Unicode character database that Python consults for
    code points above U+007F. *)
Class UnicodeDB : Type := {
  uni_alnum : N -> bool;
  uni_space : N -> bool;
  uni_decimal : N -> option Z;
  uni_decimal_range : forall c d, uni_decimal c = Some d -> 0 <= d <= 9;
  uni_decimal_not_space : forall c d, uni_decimal c = Some d -> uni_space c = false;
  uni_decimal_alnum : forall c d, uni_decimal c = Some d -> uni_alnum c = true;
}.

Section Text.
Context {U : UnicodeDB}.

Definition between (lo hi c : N) : bool := ((lo <=? c) && (c <=? hi))%N.

(** [str.isspace] on one character; also [\s] of [re] and the separators of
    [str.split()] and [str.strip()]. *)
Definition isspace (c : N) : bool :=
  if (c <? 128)%N then between 9 13 c || between 28 32 c else uni_space c.

(** The decimal value of a character of category Nd: the digits accepted by
    [int], [float] and [\d]. *)
Definition decimal_value (c : N) : option Z :=
  if (c <? 128)%N then
    if between 48 57 c then Some (Z.of_N c - 48) else None
  else uni_decimal c.

Definition isdecimal (c : N) : bool :=
  match decimal_value c with Some _ => true | None => false end.

(** [c.isalnum()] on one character. *)
Definition isalnum (c : N) : bool :=
  if (c <? 128)%N then between 48 57 c || between 65 90 c || between 97 122 c
  else uni_alnum c.

(** [c in s] for a one-character [c]. *)
Definition char_in (c : N) (s : pystr) : bool := existsb (N.eqb c) s.

Fixpoint take_while {A} (p : A -> bool) (l : list A) : list A :=
  match l with
  | x :: l' => if p x then x :: take_while p l' else []
  | [] => []
  end.

Fixpoint drop_while {A} (p : A -> bool) (l : list A) : list A :=
  match l with
  | x :: l' => if p x then drop_while p l' else l
  | [] => []
  end.

(** [s.strip()] *)
Definition strip (s : pystr) : pystr :=
  reverse (drop_while isspace (reverse (drop_while isspace s))).

(** The whitespace that [int] and [float] skip around a literal: the
    characters of [str.isspace] except the four separators U+001C to
    U+001F, which both reject. *)
Definition num_space (c : N) : bool :=
  if (c <? 128)%N then between 9 13 c || (c =? 32)%N else uni_space c.

Definition num_strip (s : pystr) : pystr :=
  reverse (drop_while num_space (reverse (drop_while num_space s))).

(** [s.split(sep)] for a one-character separator: never empty, keeps empty
    fields. *)
Fixpoint split_on (sep : N) (s : pystr) : list pystr :=
  match s with
  | [] => [[]]
  | c :: s' =>
      if (c =? sep)%N then [] :: split_on sep s'
      else match split_on sep s' with
           | w :: ws => (c :: w) :: ws
           | [] => [[c]]
           end
  end.

(** [s.split()]: the maximal runs of characters that are not whitespace. *)
Fixpoint split_ws (s : pystr) : list pystr :=
  match s with
  | [] => []
  | c :: s' =>
      if isspace c then split_ws s'
      else match s' with
           | [] => [[c]]
           | c' :: _ =>
               if isspace c' then [c] :: split_ws s'
               else match split_ws s' with
                    | w :: ws => (c :: w) :: ws
                    | [] => [[c]]
                    end
           end
  end.

(** [a == b] on strings *)
Fixpoint str_eqb (a b : pystr) : bool :=
  match a, b with
  | [], [] => true
  | c :: a', d :: b' => (c =? d)%N && str_eqb a' b'
  | _, _ => false
  end.

(** [l[0]] *)
Definition item0 {A} (l : list A) : result A :=
  match l with
  | x :: _ => Ok x
  | [] => Raise IndexError
  end.

(** [s.startswith(p)] *)
Fixpoint startswith (s p : pystr) : bool :=
  match p, s with
  | [], _ => true
  | c :: p', d :: s' => (c =? d)%N && startswith s' p'
  | _ :: _, [] => false
  end.

(** [sub in s] *)
Fixpoint contains (s sub : pystr) : bool :=
  startswith s sub ||
  match s with
  | [] => false
  | _ :: s' => contains s' sub
  end.

End Text.

(** ** Numbers *)

(** Python values as they come out of the tool's JSON for the fields this
    program reads: [null], booleans, integers, reals and strings. *)
Inductive pyval : Type :=
  | PNone
  | PBool (b : bool)
  | PInt (z : Z)
  | PFloat (f : spec_float)
  | PStr (s : pystr).

(** binary64 *)
Definition prec : Z := 53.
Definition emax : Z := 1024.

Definition fmul : spec_float -> spec_float -> spec_float := SFmul prec emax.
Definition fdiv : spec_float -> spec_float -> spec_float := SFdiv prec emax.
Definition flt : spec_float -> spec_float -> bool := SFltb.

(** The nearest double of an integer (infinite beyond the range). *)
Definition float_of_Z (z : Z) : spec_float := binary_normalize prec emax z 0 false.

(** The nearest double of [n / d]. *)
Definition float_of_ratio (n d : positive) : spec_float :=
  fdiv (S754_finite false n 0) (S754_finite false d 0).

(** The conversion of an [int] operand in mixed arithmetic and in a float
    format: "int too large to convert to float" beyond the range. *)
Definition float_of_int (z : Z) : result spec_float :=
  match float_of_Z z with
  | S754_infinity _ => Raise OverflowError
  | f => Ok f
  end.

(** [int(f)]: truncation toward zero. *)
Definition int_of_float (f : spec_float) : result Z :=
  match f with
  | S754_zero _ => Ok 0
  | S754_finite s m e =>
      Ok (cond_Zopp s (if 0 <=? e then Z.pos m * 2 ^ e else Z.pos m / 2 ^ (- e)))
  | S754_infinity _ => Raise OverflowError
  | S754_nan => Raise ValueError
  end.

Section Parsing.
Context {U : UnicodeDB}.

(** A run [digit (_? digit)*] at the head of [s]: its value, the number of
    its digits, and what follows it. *)
Fixpoint scan_digits (acc : Z) (n : nat) (s : pystr) : Z * nat * pystr :=
  match s with
  | c :: s' =>
      match decimal_value c with
      | Some d => scan_digits (10 * acc + d) (S n) s'
      | None =>
          if (c =? 95)%N && negb (Nat.eqb n 0) &&
             match s' with c' :: _ => isdecimal c' | [] => false end
          then scan_digits acc n s'
          else (acc, n, s)
      end
  | [] => (acc, n, s)
  end.

(** An optional sign at the head of [s]: [true] for a minus. *)
Definition scan_sign (s : pystr) : bool * pystr :=
  match s with
  | 43%N :: s' => (false, s')
  | 45%N :: s' => (true, s')
  | _ => (false, s)
  end.

(** The default of [sys.get_int_max_str_digits()]: a literal with more
    digits is refused by [int]. *)
Definition int_max_str_digits : Z := 4300.

(** [int(s)] for a string, base 10: an optional sign and a run of digits
    between skipped whitespace, of at most [int_max_str_digits] digits
    (underscores do not count). *)
Definition int_of_str (s : pystr) : result Z :=
  let '(neg, body) := scan_sign (num_strip s) in
  let '(v, n, rest) := scan_digits 0 0 body in
  match n, rest with
  | S _, [] =>
      if int_max_str_digits <? Z.of_nat n then Raise ValueError
      else Ok (cond_Zopp neg v)
  | _, _ => Raise ValueError
  end.

(** The double nearest to [n * 10 ^ ex], signed. *)
Definition decimal_to_float (neg : bool) (n ex : Z) : spec_float :=
  match n with
  | Z.pos p =>
      if 0 <=? ex then binary_normalize prec emax (cond_Zopp neg (n * 10 ^ ex)) 0 neg
      else fdiv (S754_finite neg p 0) (S754_finite false (Z.to_pos (10 ^ (- ex))) 0)
  | _ => S754_zero neg
  end.

(** The exponent part of a float literal, when [s] is empty or is one. *)
Definition scan_exponent (s : pystr) : option Z :=
  match s with
  | [] => Some 0
  | c :: s' =>
      if (c =? 101)%N || (c =? 69)%N then
        let '(neg, body) := scan_sign s' in
        match scan_digits 0 0 body with
        | (v, S _, []) => Some (cond_Zopp neg v)
        | _ => None
        end
      else None
  end.

Definition lower (c : N) : N := if between 65 90 c then (c + 32)%N else c.

(** [float(s)] for a string: a decimal literal with optional fraction and
    exponent, or an infinity or a nan, correctly rounded. *)
Definition float_of_str (s : pystr) : result spec_float :=
  let '(neg, body) := scan_sign (num_strip s) in
  let low := map lower body in
  if str_eqb low (lit "inf") || str_eqb low (lit "infinity") then Ok (S754_infinity neg)
  else if str_eqb low (lit "nan") then Ok S754_nan
  else
    let '(ip, ni, r1) := scan_digits 0 0 body in
    let '(fp, nf, r2) :=
      match r1 with
      | 46%N :: r => scan_digits ip 0 r
      | _ => (ip, 0%nat, r1)
      end in
    match (ni + nf)%nat, scan_exponent r2 with
    | S _, Some ex => Ok (decimal_to_float neg fp (ex - Z.of_nat nf))
    | _, _ => Raise ValueError
    end.

(** [int(v)] *)
Definition py_int (v : pyval) : result Z :=
  match v with
  | PNone => Raise TypeError
  | PBool b => Ok (if b then 1 else 0)
  | PInt z => Ok z
  | PFloat f => int_of_float f
  | PStr s => int_of_str s
  end.

End Parsing.

(** ** Formatting with [.2f] *)

(** The decimal digits of a natural number, most significant first. *)
Fixpoint digits_fuel (fuel : nat) (n : Z) (acc : pystr) : pystr :=
  match fuel with
  | O => acc
  | S fuel' =>
      let acc' := Z.to_N (48 + n mod 10) :: acc in
      if n <? 10 then acc' else digits_fuel fuel' (n / 10) acc'
  end.

Definition decimal_digits (n : Z) : pystr :=
  digits_fuel (S (Z.to_nat (Z.log2 n))) n [].

(** [n / d] rounded to the nearest integer, ties to even. *)
Definition nearest_even (n d : Z) : Z :=
  let q := n / d in
  match 2 * (n mod d) ?= d with
  | Lt => q
  | Gt => q + 1
  | Eq => if Z.even q then q else q + 1
  end.

(** [m * 2 ^ e] in hundredths, rounded to the nearest, ties to even: the
    correctly rounded two-decimal rendering of a double. *)
Definition hundredths (m : positive) (e : Z) : Z :=
  if 0 <=? e then 100 * Z.pos m * 2 ^ e
  else nearest_even (100 * Z.pos m) (2 ^ (- e)).

(** A number of hundredths as [<integer part>.<two digits>]. *)
Definition render_hundredths (h : Z) : pystr :=
  decimal_digits (h / 100) ++
  [46%N; Z.to_N (48 + (h mod 100) / 10); Z.to_N (48 + h mod 10)].

Definition sign_str (neg : bool) : pystr := if neg then [45%N] else [].

(** [f"{x:.2f}"] for a float [x]. *)
Definition format_2f (x : spec_float) : pystr :=
  match x with
  | S754_zero s => sign_str s ++ render_hundredths 0
  | S754_finite s m e => sign_str s ++ render_hundredths (hundredths m e)
  | S754_infinity s => sign_str s ++ lit "inf"
  | S754_nan => lit "nan"
  end.

(** ** format_file_size *)

(** The loop variable [size_in_bytes] is an [int] until the first division
    and a [float] afterwards. *)
Inductive number : Type :=
  | NInt (z : Z)
  | NFloat (f : spec_float).

Definition float_1024 : spec_float := Eval vm_compute in float_of_Z 1024.

(** [size_in_bytes < 1024.0]: Python compares an [int] with a [float] by
    value, without rounding the [int]. *)
Definition lt_1024 (x : number) : bool :=
  match x with
  | NInt z => z <? 1024
  | NFloat f => flt f float_1024
  end.

(** [f"{size_in_bytes:.2f}"] *)
Definition number_format_2f (x : number) : result pystr :=
  match x with
  | NInt z => f ← float_of_int z; Ok (format_2f f)
  | NFloat f => Ok (format_2f f)
  end.

(** [size_in_bytes / 1024.0] *)
Definition div_1024 (x : number) : result spec_float :=
  match x with
  | NInt z => f ← float_of_int z; Ok (fdiv f float_1024)
  | NFloat f => Ok (fdiv f float_1024)
  end.

Definition units : list pystr :=
  [lit "B"; lit "KB"; lit "MB"; lit "GB"; lit "TB"].

(** The [for unit in ...] loop: [Some] of the returned string, or [None] when
    the loop runs off the end of the list. *)
Fixpoint size_loop (us : list pystr) (size_in_bytes : number) : result (option pystr) :=
  match us with
  | [] => Ok None
  | unit :: us' =>
      if lt_1024 size_in_bytes then
        s ← number_format_2f size_in_bytes; Ok (Some (s ++ lit " " ++ unit))
      else
        f ← div_1024 size_in_bytes; size_loop us' (NFloat f)
  end.

Section FormatFileSize.
Context {U : UnicodeDB}.

Definition format_file_size (size_in_bytes : pyval) : result pystr :=
  match py_int size_in_bytes with
  | Raise ValueError => Ok (lit "Unknown Size")
  | Raise e => Raise e
  | Ok n =>
      r ← size_loop units (NInt n);
      match r with
      | Some s => Ok s
      | None => Ok (lit "Unknown Size")
      end
  end.

End FormatFileSize.

(** ** Regular expressions

    The three patterns of the program use character classes, concatenation,
    greedy [?], [*], [+] and bounded repetition, and capturing groups.  The
    matcher below is the backtracking matcher of [re] on this fragment: it
    tries the greedy alternative first and falls back on failure of the
    continuation, and a group holds the text of its last successful visit. *)

Inductive regex : Type :=
  | Chr (p : N -> bool)
  | Cat (r1 r2 : regex)
  | Opt (r : regex)
  | Star (r : regex)
  | Group (i : nat) (r : regex).

Abbreviation captures := (list (option pystr)).

Fixpoint rmatch {R : Type} (r : regex) (s : pystr) (caps : captures)
    (k : pystr -> captures -> option R) {struct r} : option R :=
  match r with
  | Chr p =>
      match s with
      | c :: s' => if p c then k s' caps else None
      | [] => None
      end
  | Cat r1 r2 => rmatch r1 s caps (fun s' caps' => rmatch r2 s' caps' k)
  | Opt r1 =>
      match rmatch r1 s caps k with
      | Some x => Some x
      | None => k s caps
      end
  | Star r1 =>
      (fix star (fuel : nat) (s : pystr) (caps : captures) {struct fuel} : option R :=
         match fuel with
         | O => k s caps
         | S fuel' =>
             match rmatch r1 s caps (fun s' caps' =>
                     if (length s' <? length s)%nat then star fuel' s' caps' else None) with
             | Some x => Some x
             | None => k s caps
             end
         end) (length s) s caps
  | Group i r1 =>
      rmatch r1 s caps (fun s' caps' =>
        k s' (<[i := Some (take (length s - length s') s)]> caps'))
  end.

Definition Plus (r : regex) : regex := Cat r (Star r).

(** A literal string of at least one character. *)
Fixpoint Lit (c : N) (s : pystr) : regex :=
  match s with
  | [] => Chr (N.eqb c)
  | d :: s' => Cat (Chr (N.eqb c)) (Lit d s')
  end.

Declare Scope regex_scope.
Delimit Scope regex_scope with re.
Bind Scope regex_scope with regex.
Notation "r1 ;; r2" := (Cat r1 r2) : regex_scope.

(** No group has matched: slots 0 to 6. *)
Definition no_captures : captures := replicate 7 None.

(** [re.match(r, s)]: a match at the start of [s]. *)
Definition re_match (r : regex) (s : pystr) : option captures :=
  rmatch r s no_captures (fun _ caps => Some caps).

(** [re.search(r, s)]: the leftmost match. *)
Fixpoint re_search (r : regex) (s : pystr) : option captures :=
  match re_match r s with
  | Some caps => Some caps
  | None =>
      match s with
      | [] => None
      | _ :: s' => re_search r s'
      end
  end.

(** [m.group(i)] *)
Definition group (caps : captures) (i : nat) : option pystr :=
  default None (caps !! i).

Section Patterns.
Context {U : UnicodeDB}.

Definition d_ : regex := Chr isdecimal.
Definition s_ : regex := Chr isspace.
Definition S_ : regex := Chr (fun c => negb (isspace c)).
Definition is_word (c : N) : bool := isalnum c || (c =? 95)%N.
(** [[\w\d]] *)
Definition wd_ : regex := Chr (fun c => is_word c || isdecimal c).
(** [.] *)
Definition dot_ : regex := Chr (fun c => negb (c =? 10)%N).
Definition ch (c : N) : regex := Chr (N.eqb c).

(** [(\d+)\s+(\S+)\s+([\w\d]+(?:x[\w\d]+)?)?\s*(\d+fps)?\s*(\~?\d+\.\d+[KMG]iB)?\s*(.+)] *)
Definition format_line_re : regex :=
  (Group 1 (Plus d_) ;; Plus s_ ;; Group 2 (Plus S_) ;; Plus s_ ;;
   Opt (Group 3 (Plus wd_ ;; Opt (ch 120 ;; Plus wd_))) ;; Star s_ ;;
   Opt (Group 4 (Plus d_ ;; Lit 102 [112; 115]%N)) ;; Star s_ ;;
   Opt (Group 5 (Opt (ch 126) ;; Plus d_ ;; ch 46 ;; Plus d_ ;;
                 Chr (fun c => char_in c (lit "KMG")) ;; Lit 105 [66]%N)) ;;
   Star s_ ;; Group 6 (Plus dot_))%re.

(** [(\d{1,3}(?:\.\d+)?)%] *)
Definition percent_re : regex :=
  (Group 1 ((d_ ;; Opt (d_ ;; Opt d_)) ;; Opt (ch 46 ;; Plus d_)) ;; ch 37)%re.

(** [(\d{3,4}x\d{3,4})] *)
Definition resolution_re : regex :=
  Group 1 ((d_ ;; d_ ;; d_ ;; Opt d_) ;; ch 120 ;; (d_ ;; d_ ;; d_ ;; Opt d_))%re.

End Patterns.

(** ** The world: processes, files, console, progress bar *)

(** What the program does to its surroundings, in order. *)
Inductive event : Type :=
  | EvSpawn (argv : list pystr)
  | EvPrint (text : pystr)
  | EvBarOpen (total : Z)
  | EvBarUpdate (delta : Z)
  | EvBarClose
  | EvRename (src dst : pystr).

(** A finished child process: exit status and captured output. *)
Record completed : Type := {
  returncode : Z;
  stdout : pystr;
  stderr : pystr;
}.

(** The collaborators: the file system with [os.rename], the external tool
    behind [subprocess], [json.loads] ([None] for a [JSONDecodeError];
    [yt-dlp --dump-json] prints one JSON object),
    [datetime.strptime(s, "%Y%m%d").strftime("%Y-%m-%d")], the [str] of a
    float, and the download directory computed at import time. *)
Class Externals : Type := {
  fs_state : Type;
  DOWNLOAD_DIR : pystr;
  spawn : list pystr -> fs_state -> result completed * fs_state;
  os_rename : pystr -> pystr -> fs_state -> result fs_state;
  json_loads : pystr -> option (gmap pystr pyval);
  strptime_strftime : pystr -> result pystr;
  float_str : spec_float -> pystr;
}.

Section World.
Context {U : UnicodeDB} {E : Externals}.

Record world : Type := {
  w_fs : fs_state;
  w_trace : list event;
}.

(** Computations that act on the world and may raise. *)
Definition M (A : Type) : Type := world -> result A * world.

#[export] Instance M_ret : MRet M := fun _ a w => (Ok a, w).
#[export] Instance M_bind : MBind M := fun _ _ f m w =>
  match m w with
  | (Ok a, w') => f a w'
  | (Raise e, w') => (Raise e, w')
  end.

Definition lift {A} (r : result A) : M A := fun w => (r, w).
Definition raise {A} (e : exn) : M A := lift (Raise e).

Definition emit (e : event) : M unit := fun w =>
  (Ok tt, {| w_fs := w_fs w; w_trace := w_trace w ++ [e] |}).

(** [print(text)] *)
Definition print (text : pystr) : M unit := emit (EvPrint text).

(** [subprocess.run(argv, capture_output=True, text=True)], and
    [subprocess.Popen(argv, ...)] read to the end and waited for. *)
Definition subprocess_run (argv : list pystr) : M completed := fun w =>
  let '(r, fs') := spawn argv (w_fs w) in
  (r, {| w_fs := fs'; w_trace := w_trace w ++ [EvSpawn argv] |}).

(** [os.rename(src, dst)] *)
Definition rename (src dst : pystr) : M unit := fun w =>
  match os_rename src dst (w_fs w) with
  | Ok fs' => (Ok tt, {| w_fs := fs'; w_trace := w_trace w ++ [EvRename src dst] |})
  | Raise e => (Raise e, {| w_fs := w_fs w; w_trace := w_trace w ++ [EvRename src dst] |})
  end.

Definition NL : N := 10%N.
Definition cross_mark : N := 10060%N.
Definition check_mark : N := 9989%N.
Definition scroll_mark : N := 128220%N.
Definition rocket_mark : N := 128640%N.

Definition YT_DLP_PATH : pystr := lit "yt-dlp".

(** [os.path.join(a, b)] (POSIX) *)
Definition path_join (a b : pystr) : pystr :=
  match b with
  | 47%N :: _ => b
  | _ =>
      match last a with
      | None | Some 47%N => a ++ b
      | Some _ => a ++ [47%N] ++ b
      end
  end.

(** [os.path.basename(p)] (POSIX) *)
Definition basename (p : pystr) : pystr :=
  reverse (take_while (fun c => negb (c =? 47)%N) (reverse p)).

(** [str(v)], as an f-string field renders it. *)
Definition py_str (v : pyval) : pystr :=
  match v with
  | PNone => lit "None"
  | PBool b => if b then lit "True" else lit "False"
  | PInt z => sign_str (z <? 0) ++ decimal_digits (Z.abs z)
  | PFloat f => float_str f
  | PStr s => s
  end.

(** ** get_video_info *)

(** [d.get(key, dflt)] *)
Definition dict_get (d : gmap pystr pyval) (key : string) (dflt : pyval) : pyval :=
  default dflt (d !! lit key).

(** The body of the [try] block once the JSON text is parsed. *)
Definition video_info_of (info : gmap pystr pyval) : result (gmap pystr pyval) :=
  upload_date ←
    match info !! lit "upload_date" with
    | Some (PStr d) => strptime_strftime d
    | Some _ => Raise TypeError
    | None => Ok (lit "Unknown Date")
    end;
  filesize ← format_file_size (dict_get info "filesize_approx" (PInt 0));
  Ok (<[lit "title" := dict_get info "title" (PStr (lit "Unknown Title"))]> (
      <[lit "duration" := dict_get info "duration_string" (PStr (lit "Unknown Duration"))]> (
      <[lit "filesize" := PStr filesize]> (
      <[lit "upload_date" := PStr upload_date]> (
      <[lit "resolution" := dict_get info "resolution" (PStr (lit "Unknown"))]> ∅))))).

Definition get_video_info (video_url : pystr) : M (option (gmap pystr pyval)) :=
  process ← subprocess_run [YT_DLP_PATH; lit "--dump-json"; video_url];
  if negb (returncode process =? 0) then
    _ ← print (cross_mark :: lit " Failed to retrieve video info.");
    mret None
  else
    match json_loads (stdout process) with
    | None =>
        _ ← print (cross_mark :: lit " Error parsing video metadata.");
        mret None
    | Some info =>
        video_info ← lift (video_info_of info);
        mret (Some video_info)
    end.

(** ** get_video_formats *)

(** [f"{s:<n}"] *)
Definition ljust (n : nat) (s : pystr) : pystr := s ++ replicate (n - length s) 32%N.

(** [x or 'N/A'] for a group of a match. *)
Definition or_NA (x : option pystr) : pystr :=
  match x with
  | Some (c :: s) => c :: s
  | _ => lit "N/A"
  end.

(** The table row printed for a matching line. *)
Definition format_row (caps : captures) : pystr :=
  ljust 8 (default [] (group caps 1)) ++ lit " " ++
  ljust 6 (default [] (group caps 2)) ++ lit " " ++
  ljust 12 (or_NA (group caps 3)) ++ lit " " ++
  ljust 6 (or_NA (group caps 4)) ++ lit " " ++
  ljust 10 (or_NA (group caps 5)) ++ lit " " ++
  default [] (group caps 6).

(** The body of the [for line in format_lines[3:]] loop. *)
Fixpoint print_format_rows (ls : list pystr) : M unit :=
  match ls with
  | [] => mret tt
  | line :: ls' =>
      _ ← match re_match format_line_re line with
          | Some caps => print (format_row caps)
          | None => mret tt
          end;
      print_format_rows ls'
  end.

Definition get_video_formats (video_url : pystr) : M (option pystr) :=
  result ← subprocess_run [YT_DLP_PATH; lit "-F"; video_url];
  if negb (returncode result =? 0) then
    _ ← print (cross_mark :: lit " Error: " ++ stderr result);
    mret None
  else
    _ ← print ([NL; scroll_mark] ++ lit " Available Formats:" ++ [NL]);
    _ ← print (ljust 8 (lit "ID") ++ lit " " ++ ljust 6 (lit "Ext") ++ lit " " ++
               ljust 12 (lit "Resolution") ++ lit " " ++ ljust 6 (lit "FPS") ++ lit " " ++
               ljust 10 (lit "Size") ++ lit " " ++ lit "Type");
    _ ← print (replicate 60 61%N);
    let format_lines := split_on NL (strip (stdout result)) in
    _ ← print_format_rows (drop 3 format_lines);
    mret (Some (stdout result)).

(** ** download_with_progress *)

(** The lines a text stream yields, each with its newline. *)
Fixpoint lines_of (s : pystr) : list pystr :=
  match s with
  | [] => []
  | c :: s' =>
      if (c =? NL)%N then [c] :: lines_of s'
      else match lines_of s' with
           | w :: ws => (c :: w) :: ws
           | [] => [[c]]
           end
  end.

Definition float_100 : spec_float := Eval vm_compute in float_of_Z 100.

(** [int((float(text) / 100) * total_size)] *)
Definition progress_size (text : pystr) (total_size : Z) : result Z :=
  percent ← float_of_str text;
  total ← float_of_int total_size;
  int_of_float (fmul (fdiv percent float_100) total).

(** The [for line in process.stdout] loop, from a given [downloaded_size];
    it returns the last [downloaded_size]. *)
Fixpoint progress_loop (total_size : Z) (lines : list pystr) (downloaded_size : Z) : M Z :=
  match lines with
  | [] => mret downloaded_size
  | line :: lines' =>
      match re_search percent_re line with
      | Some caps =>
          new_size ← lift (progress_size (default [] (group caps 1)) total_size);
          _ ← emit (EvBarUpdate (new_size - downloaded_size));
          progress_loop total_size lines' new_size
      | None => progress_loop total_size lines' downloaded_size
      end
  end.

Definition download_with_progress (command : list pystr) (output_path : pystr)
    (total_size : Z) : M Z :=
  process ← subprocess_run command;
  _ ← emit (EvBarOpen total_size);
  _ ← progress_loop total_size (lines_of (stdout process)) 0;
  _ ← emit EvBarClose;
  mret (returncode process).

(** ** sanitize_filename *)

Definition sanitize_char (c : N) : N :=
  if isalnum c || char_in c (lit " _-") then c else 95%N.

Definition sanitize_filename (title : pystr) : pystr := map sanitize_char title.

(** The same rule, written out again in [download_and_merge]. *)
Definition merge_safe_title (title : pystr) : pystr :=
  map (fun c => if isalnum c || char_in c (lit " _-") then c else 95%N) title.

(** ** The three workflows *)

(** [d[key]] where [d] is what [get_video_info] returned. *)
Definition subscript (d : option (gmap pystr pyval)) (key : string) : result pyval :=
  match d with
  | None => Raise TypeError
  | Some m =>
      match m !! lit key with
      | Some v => Ok v
      | None => Raise KeyError
      end
  end.

(** Iterating over a value, as a comprehension does. *)
Definition py_iter (v : pyval) : result pystr :=
  match v with
  | PStr s => Ok s
  | _ => Raise TypeError
  end.

(** [v != text] *)
Definition py_ne (v : pyval) (text : pystr) : bool :=
  match v with
  | PStr s => negb (str_eqb s text)
  | _ => true
  end.

(** [v.split()] *)
Definition py_split (v : pyval) : result (list pystr) :=
  match v with
  | PStr s => Ok (split_ws s)
  | _ => Raise AttributeError
  end.

(** [text in v] *)
Definition py_contains (v : pyval) (text : pystr) : result bool :=
  match v with
  | PStr s => Ok (contains s text)
  | _ => Raise TypeError
  end.

(** [int(filesize.split()[0]) if filesize != "Unknown Size" else 0] *)
Definition plain_total_size (filesize : pyval) : result Z :=
  if py_ne filesize (lit "Unknown Size") then
    ws ← py_split filesize; tok ← item0 ws; int_of_str tok
  else Ok 0.

Definition download_video (video_url format_id : pystr) : M unit :=
  video_info ← get_video_info video_url;
  title ← lift (subscript video_info "title");
  title ← lift (py_iter title);
  let safe_title := sanitize_filename title in
  let video_output := path_join DOWNLOAD_DIR (safe_title ++ lit ".mp4") in
  filesize ← lift (subscript video_info "filesize");
  total_size ← lift (plain_total_size filesize);
  let command :=
    [YT_DLP_PATH; lit "-f"; format_id; lit "-o"; video_output; video_url;
     lit "--embed-subs"; lit "--sub-lang"; lit "en"] in
  result ← download_with_progress command video_output total_size;
  if result =? 0 then
    resolution ← lift (subscript video_info "resolution");
    let new_filename := safe_title ++ lit "_" ++ py_str resolution ++ lit ".mp4" in
    let new_path := path_join DOWNLOAD_DIR new_filename in
    _ ← rename video_output new_path;
    print ([NL; check_mark] ++ lit " Video downloaded successfully as:" ++ [NL] ++ new_filename)
  else
    print ([NL; cross_mark] ++ lit " Video download failed.").

Definition download_audio (video_url audio_format_id : pystr) : M unit :=
  video_info ← get_video_info video_url;
  title ← lift (subscript video_info "title");
  title ← lift (py_iter title);
  let safe_title := sanitize_filename title in
  let audio_output := path_join DOWNLOAD_DIR (safe_title ++ lit ".m4a") in
  filesize ← lift (subscript video_info "filesize");
  total_size ← lift (plain_total_size filesize);
  let command := [YT_DLP_PATH; lit "-f"; audio_format_id; lit "-o"; audio_output; video_url] in
  result ← download_with_progress command audio_output total_size;
  if result =? 0 then
    print ([NL; check_mark] ++ lit " Audio downloaded successfully as:" ++ [NL] ++
           basename audio_output)
  else
    print ([NL; cross_mark] ++ lit " Audio download failed.").

(** The resolution loop of the merge workflow: the last line that starts
    with the format id and holds a [WxH] token decides. *)
Fixpoint find_resolution (video_format_id : pystr) (format_details : list pystr)
    (resolution : pystr) : pystr :=
  match format_details with
  | [] => resolution
  | line :: rest =>
      if startswith line video_format_id then
        match re_search resolution_re line with
        | Some caps => find_resolution video_format_id rest (default [] (group caps 1))
        | None => find_resolution video_format_id rest resolution
        end
      else find_resolution video_format_id rest resolution
  end.

(** [try: ... except ValueError: dflt] *)
Definition except_ValueError {A} (r : result A) (dflt : A) : result A :=
  match r with
  | Raise ValueError => Ok dflt
  | _ => r
  end.

(** The first token of the size string as a float, times [1024] [k] times. *)
Fixpoint times_1024 (k : nat) (f : spec_float) : spec_float :=
  match k with
  | O => f
  | S k' => times_1024 k' (fmul f float_1024)
  end.

Definition scaled_size (filesize : pyval) (k : nat) : result number :=
  ws ← py_split filesize; tok ← item0 ws; f ← float_of_str tok;
  Ok (NFloat (times_1024 k f)).

(** The size conversion of the merge workflow ("Convert file size properly"). *)
Definition merge_total_size (filesize : pyval) : result number :=
  except_ValueError
    (is_mb ← py_contains filesize (lit "MB");
     if (is_mb : bool) then scaled_size filesize 2
     else
       is_gb ← py_contains filesize (lit "GB");
       if (is_gb : bool) then scaled_size filesize 3 else Ok (NInt 0))
    (NInt 0).

(** [int(total_size)] *)
Definition int_of_number (x : number) : result Z :=
  match x with
  | NInt z => Ok z
  | NFloat f => int_of_float f
  end.

Definition download_and_merge (video_url video_format_id audio_format_id : pystr) : M unit :=
  video_info ← get_video_info video_url;
  title ← lift (subscript video_info "title");
  title ← lift (py_iter title);
  let safe_title := merge_safe_title title in
  formats ← get_video_formats video_url;
  format_details ←
    match formats with
    | Some text => mret (split_on NL text)
    | None => raise AttributeError
    end;
  let resolution := find_resolution video_format_id format_details (lit "UnknownRes") in
  let download_title := safe_title ++ lit "_(" ++ resolution ++ lit ")" in
  let video_output := path_join DOWNLOAD_DIR (download_title ++ lit ".mp4") in
  filesize ← lift (subscript video_info "filesize");
  total_size ← lift (merge_total_size filesize);
  let command :=
    [YT_DLP_PATH; lit "-f"; video_format_id ++ lit "+" ++ audio_format_id; lit "-o";
     video_output; video_url; lit "--embed-subs"; lit "--sub-lang"; lit "en"] in
  _ ← print ([NL; rocket_mark] ++ lit " Downloading: " ++ download_title ++ lit ".mp4");
  total ← lift (int_of_number total_size);
  result ← download_with_progress command video_output total;
  if result =? 0 then
    print ([NL; check_mark] ++ lit " Merged video downloaded successfully as:" ++ [NL] ++
           basename video_output)
  else
    print ([NL; cross_mark] ++ lit " Merge failed.").

End World.

(** ** Vocabulary of the properties *)

(** Following the specification's words for the ProgressEstimator,
    [round(percent/100 * totalBytes)]: the nearest integer, ties to even. *)
Definition round_float (f : spec_float) : result Z :=
  match f with
  | S754_zero _ => Ok 0
  | S754_finite s m e =>
      Ok (cond_Zopp s
            (if 0 <=? e then Z.pos m * 2 ^ e else nearest_even (Z.pos m) (2 ^ (- e))))
  | S754_infinity _ => Raise OverflowError
  | S754_nan => Raise ValueError
  end.

Definition spec_progress_size `{UnicodeDB} (text : pystr) (total_size : Z) : result Z :=
  percent ← float_of_str text;
  total ← float_of_int total_size;
  round_float (fmul (fdiv percent float_100) total).

(** The percentage text of a line of tool output, when it has one. *)
Definition percent_of_line `{UnicodeDB} (line : pystr) : option pystr :=
  match re_search percent_re line with
  | Some caps => Some (default [] (group caps 1))
  | None => None
  end.

(** The successive differences of a sequence of sizes, from [prev]. *)
Fixpoint diffs (prev : Z) (sizes : list Z) : list Z :=
  match sizes with
  | [] => []
  | n :: rest => (n - prev) :: diffs n rest
  end.

Definition sum_Z (l : list Z) : Z := foldr Z.add 0 l.

(** Whether a line of the listing has the shape of a format row, and the
    table row printed for it. *)
Definition is_format_line `{UnicodeDB} (line : pystr) : bool :=
  match re_match format_line_re line with
  | Some _ => true
  | None => false
  end.

Definition row_of_line `{UnicodeDB} (line : pystr) : option pystr :=
  match re_match format_line_re line with
  | Some caps => Some (format_row caps)
  | None => None
  end.

(** The three lines printed above the table. *)
Definition table_header : list pystr :=
  [[NL; scroll_mark] ++ lit " Available Formats:" ++ [NL];
   ljust 8 (lit "ID") ++ lit " " ++ ljust 6 (lit "Ext") ++ lit " " ++
   ljust 12 (lit "Resolution") ++ lit " " ++ ljust 6 (lit "FPS") ++ lit " " ++
   ljust 10 (lit "Size") ++ lit " " ++ lit "Type";
   replicate 60 61%N].

(** Whether a group number occurs in a pattern. *)
Fixpoint has_group (i : nat) (r : regex) : bool :=
  match r with
  | Chr _ => false
  | Cat r1 r2 => has_group i r1 || has_group i r2
  | Opt r1 | Star r1 => has_group i r1
  | Group j r1 => Nat.eqb i j || has_group i r1
  end.

(** What a successful visit of a pattern does: it consumes a prefix of the
    text and may set groups. *)
Inductive matches : regex -> pystr -> captures -> pystr -> captures -> Prop :=
  | matches_chr p c s caps :
      p c = true -> matches (Chr p) (c :: s) caps s caps
  | matches_cat r1 r2 s caps s1 caps1 s2 caps2 :
      matches r1 s caps s1 caps1 -> matches r2 s1 caps1 s2 caps2 ->
      matches (Cat r1 r2) s caps s2 caps2
  | matches_opt_some r s caps s' caps' :
      matches r s caps s' caps' -> matches (Opt r) s caps s' caps'
  | matches_opt_none r s caps : matches (Opt r) s caps s caps
  | matches_star_nil r s caps : matches (Star r) s caps s caps
  | matches_star_cons r s caps s1 caps1 s2 caps2 :
      matches r s caps s1 caps1 -> matches (Star r) s1 caps1 s2 caps2 ->
      matches (Star r) s caps s2 caps2
  | matches_group i r s caps s' caps' :
      matches r s caps s' caps' ->
      matches (Group i r) s caps s' (<[i := Some (take (length s - length s') s)]> caps').

(** The renames among the events of a run. *)
Definition renames (tr : list event) : list (pystr * pystr) :=
  omap (fun e => match e with EvRename src dst => Some (src, dst) | _ => None end) tr.

(** The command lines among the events of a run. *)
Definition spawns (tr : list event) : list (list pystr) :=
  omap (fun e => match e with EvSpawn argv => Some argv | _ => None end) tr.

(** The characters a sanitized name may hold. *)
Definition safe_char `{UnicodeDB} (c : N) : Prop :=
  isalnum c = true \/ c = 32%N \/ c = 95%N \/ c = 45%N.

(** An ASCII digit. *)
Definition ascii_digit (c : N) : Prop := between 48 57 c = true.

(** What the loop of [format_file_size] returns from a float with mantissa
    [m] and exponent [e], by the exponent alone. *)
Fixpoint scaled (us : list pystr) (m : positive) (e : Z) : option pystr :=
  match us with
  | [] => None
  | u :: us' =>
      if e <? -42 then Some (format_2f (S754_finite false m e) ++ lit " " ++ u)
      else scaled us' m (e - 10)
  end.

(** Following the specification's words for [formatFileSize]: the result
    for [b] is a number and a unit, and the number, read back, is below
    1024. *)
Definition renders_below_1024 `{UnicodeDB} (b : Z) : Prop :=
  exists s tok unit x,
    format_file_size (PInt b) = Ok s /\ split_ws s = [tok; unit] /\
    unit ∈ units /\ float_of_str tok = Ok x /\ flt x float_1024 = true.

(** A computation whose events hold no rename. *)
Definition keeps_renames `{UnicodeDB} `{Externals} {A} (m : M A) : Prop :=
  forall w r w1, m w = (r, w1) -> renames (w_trace w1) = renames (w_trace w).

(** Every character class of a pattern lies within [P]. *)
Fixpoint classes_in (P : N -> Prop) (r : regex) : Prop :=
  match r with
  | Chr p => forall c, p c = true -> P c
  | Cat r1 r2 => classes_in P r1 /\ classes_in P r2
  | Opt r1 | Star r1 | Group _ r1 => classes_in P r1
  end.

(** Lines joined by newlines. *)
Fixpoint unlines (ls : list pystr) : pystr :=
  match ls with
  | [] => []
  | [l] => l
  | l :: ls' => l ++ NL :: unlines ls'
  end.

(** ** Sample collaborators

    A fragment of the Unicode database (the Latin-1 letters, the CJK unified
    ideographs, the Arabic-Indic digits, the no-break space and the next-line
    control), and a scripted tool over a file system of named files: they
    provide concrete runs of the program. *)

#[export] Program Instance sample_unicode : UnicodeDB := {
  uni_alnum := fun c =>
    between 192 214 c || between 216 246 c || between 248 255 c ||
    between 1632 1641 c || between 19968 40959 c;
  uni_space := fun c => (c =? 133)%N || (c =? 160)%N;
  uni_decimal := fun c => if between 1632 1641 c then Some (Z.of_N c - 1632) else None;
}.
Next Obligation.
  intros c d. cbv beta. unfold between.
  destruct (_ && _) eqn:H; [|discriminate].
  apply andb_true_iff in H. rewrite !N.leb_le in H. intros [= <-]. lia.
Qed.
Next Obligation.
  intros c d. cbv beta. unfold between.
  destruct (_ && _) eqn:H; [|discriminate].
  apply andb_true_iff in H. rewrite !N.leb_le in H. intros _.
  apply orb_false_iff. rewrite !N.eqb_neq. lia.
Qed.
Next Obligation.
  intros c d. cbv beta. destruct (between 1632 1641 c) eqn:H; [|discriminate].
  intros _. rewrite !orb_true_r. reflexivity.
Qed.

(** One run of the external tool, by the kind of call. *)
Record scenario : Type := {
  sc_info : option (gmap pystr pyval);
  sc_listing : completed;
  sc_download : completed;
}.

Definition sample_spawn (sc : scenario) (argv : list pystr)
    (fs : gmap pystr pystr) : result completed * gmap pystr pystr :=
  match argv with
  | [_; flag; _] =>
      if str_eqb flag (lit "-F") then (Ok (sc_listing sc), fs)
      else (Ok {| returncode := 0; stdout := lit "JSON"; stderr := [] |}, fs)
  | _ :: _ :: _ :: _ :: out :: _ =>
      (Ok (sc_download sc), <[out := lit "media"]> fs)
  | _ => (Raise FileNotFoundError, fs)
  end.

Definition sample_rename (src dst : pystr) (fs : gmap pystr pystr)
    : result (gmap pystr pystr) :=
  match fs !! src with
  | Some data => Ok (<[dst := data]> (delete src fs))
  | None => Raise FileNotFoundError
  end.

(** Eight ASCII digits [YYYYMMDD] to [YYYY-MM-DD] (no calendar check). *)
Definition sample_date (s : pystr) : result pystr :=
  if (length s =? 8)%nat && forallb (between 48 57) s
  then Ok (take 4 s ++ [45%N] ++ take 2 (drop 4 s) ++ [45%N] ++ drop 6 s)
  else Raise ValueError.

Definition sample_externals (sc : scenario) : Externals := {|
  fs_state := gmap pystr pystr;
  DOWNLOAD_DIR := lit "/home/user/Downloads/Youtube Downloads";
  spawn := sample_spawn sc;
  os_rename := sample_rename;
  json_loads := fun text => if str_eqb text (lit "JSON") then sc_info sc else None;
  strptime_strftime := sample_date;
  float_str := format_2f;
|}.

(** A run where the tool lists nothing and the download succeeds. *)
Definition quiet : scenario := {|
  sc_info := Some ∅;
  sc_listing := {| returncode := 0; stdout := []; stderr := [] |};
  sc_download := {| returncode := 0; stdout := []; stderr := [] |};
|}.

(** The empty file system and console, for a given scenario. *)
Definition start (sc : scenario) : @world (sample_externals sc) :=
  @Build_world (sample_externals sc) ∅ [].

(** A listing as the tool prints it: three lines of header, a rule, a
    storyboard row, and four rows of the expected shape. *)
Definition listing_lines : list pystr :=
  [lit "[youtube] Extracting URL: https://youtu.be/x";
   lit "[info] Available formats for x:";
   lit "ID  EXT   RESOLUTION FPS |  FILESIZE  TBR PROTO | VCODEC      ACODEC";
   lit "------------------------------------------------------------------";
   lit "sb0 mhtml 48x27         0 |                mhtml | images      storyboard";
   lit "140 m4a   audio only      |   3.27MiB 129k https | audio only  mp4a.40.2";
   lit "22  mp4   1280x720   30   |  18.40MiB 754k https | avc1.64001F mp4a.40.2";
   lit "229 mp4   426x240    30   |   5.11MiB 210k m3u8  | avc1.4D4015 video only";
   lit "137 mp4   1920x1080  30   |  85.21MiB 3480k https | avc1.640028 video only"].

Definition listing : pystr := unlines listing_lines ++ [NL].

(** A video of 15 MiB whose formats are those of [listing]; the download
    exits with [code]. *)
Definition clip (code : Z) : scenario := {|
  sc_info := Some (<[lit "title" := PStr (lit "Test Video!")]> (
                   <[lit "filesize_approx" := PInt 15728640]> (
                   <[lit "resolution" := PStr (lit "1280x720")]> ∅)));
  sc_listing := {| returncode := 0; stdout := listing; stderr := [] |};
  sc_download := {| returncode := code;
                    stdout := unlines [lit "[download]  50.0% of 15.00MiB";
                                       lit "[download] 100% of 15.00MiB"] ++ [NL];
                    stderr := [] |};
|}.

(** A video whose size the tool does not give as a number; the download
    exits with [code]. *)
Definition unsized (code : Z) : scenario := {|
  sc_info := Some (<[lit "title" := PStr (lit "Test Video!")]> (
                   <[lit "filesize_approx" := PStr (lit "n/a")]> (
                   <[lit "resolution" := PStr (lit "1280x720")]> ∅)));
  sc_listing := {| returncode := 0; stdout := listing; stderr := [] |};
  sc_download := {| returncode := code;
                    stdout := lit "[download] 100% of 15.00MiB" ++ [NL];
                    stderr := [] |};
|}.

(** A video for which the tool reports no size: [filesize_approx] is
    [null]. *)
Definition null_size : scenario := {|
  sc_info := Some (<[lit "title" := PStr (lit "Test Video!")]> (
                   <[lit "filesize_approx" := PNone]> ∅));
  sc_listing := {| returncode := 0; stdout := listing; stderr := [] |};
  sc_download := {| returncode := 0; stdout := []; stderr := [] |};
|}.

(** Output of a download, with a repeated and a receding percentage. *)
Definition progress_lines : list pystr :=
  [lit "[download] Destination: clip.mp4";
   lit "[download]  29.0% of 100.00B at 1.00KiB/s";
   lit "[download]  29.0% of 100.00B at 1.00KiB/s";
   lit "[download]  12.5% of 100.00B at 1.00KiB/s";
   lit "[download] 100% of 100.00B in 00:01"].

(** The tool answers, but not with JSON. *)
Definition garbled : scenario := {|
  sc_info := None;
  sc_listing := {| returncode := 0; stdout := listing; stderr := [] |};
  sc_download := {| returncode := 0; stdout := []; stderr := [] |};
|}.

(** The metadata is fine, the listing fails. *)
Definition no_listing : scenario := {|
  sc_info := Some (<[lit "title" := PStr (lit "Test Video!")]> ∅);
  sc_listing := {| returncode := 1; stdout := []; stderr := lit "ERROR: unavailable" |};
  sc_download := {| returncode := 0; stdout := []; stderr := [] |};
|}.

(** The metadata built from an empty JSON object. *)
Definition bare_video_info : gmap pystr pyval :=
  <[lit "title" := PStr (lit "Unknown Title")]> (
  <[lit "duration" := PStr (lit "Unknown Duration")]> (
  <[lit "filesize" := PStr (lit "0.00 B")]> (
  <[lit "upload_date" := PStr (lit "Unknown Date")]> (
  <[lit "resolution" := PStr (lit "Unknown")]> ∅)))).

(** The metadata of the video of [no_listing]. *)
Definition titled_video_info : gmap pystr pyval :=
  <[lit "title" := PStr (lit "Test Video!")]> bare_video_info.

(** The metadata of the video of [unsized]. *)
Definition unsized_video_info : gmap pystr pyval :=
  <[lit "title" := PStr (lit "Test Video!")]> (
  <[lit "filesize" := PStr (lit "Unknown Size")]> (
  <[lit "resolution" := PStr (lit "1280x720")]> bare_video_info)).

(** A JSON object with a title and an upload date. *)
Definition dated_info : gmap pystr pyval :=
  <[lit "title" := PStr (lit "Test Video!")]> (
  <[lit "upload_date" := PStr (lit "20240131")]> ∅).

Definition url : pystr := lit "https://youtu.be/x".

Definition show (s : pystr) : string :=
  string_of_list_ascii (map ascii_of_N s).

(** Closes an equation between closed terms by evaluation; the proof is
    [eq_refl] at the right-hand side as it is written, checked by the
    virtual machine. *)
Ltac by_evaluation :=
  lazymatch goal with
  | |- ?lhs = ?rhs => exact (@eq_refl _ rhs <: lhs = rhs)
  end.

(** * Properties *)

(** ** FilenameSanitizer *)

Section SanitizerProperties.
Context {U : UnicodeDB}.

Lemma char_in_safe c : char_in c (lit " _-") = true -> c = 32%N \/ c = 95%N \/ c = 45%N.
Proof.
  unfold char_in. cbn. rewrite !orb_true_iff, !N.eqb_eq. intuition discriminate.
Qed.

Lemma sanitize_char_safe c : safe_char (sanitize_char c).
Proof.
  unfold sanitize_char, safe_char.
  destruct (isalnum c) eqn:Ha; cbn [orb]; [tauto|].
  destruct (char_in c (lit " _-")) eqn:Hc.
  - right. by apply char_in_safe.
  - tauto.
Qed.

Lemma sanitize_char_fixed c : safe_char c -> sanitize_char c = c.
Proof.
  unfold sanitize_char, safe_char.
  intros [-> | [-> | [-> | ->]]]; [reflexivity| | |];
    by rewrite orb_true_r.
Qed.

Lemma merge_safe_title_eq title : merge_safe_title title = sanitize_filename title.
Proof. reflexivity. Qed.

(** C6: a sanitized name holds only alphanumeric characters, spaces,
    underscores and hyphens, is as long as the name it comes from, and is
    left unchanged by a second sanitization. *)
Theorem sanitize_filename_safe_length_idempotent (s : pystr) :
  Forall safe_char (sanitize_filename s) /\
  length (sanitize_filename s) = length s /\
  sanitize_filename (sanitize_filename s) = sanitize_filename s.
Proof.
  unfold sanitize_filename. split; [|split].
  - apply Forall_forall. intros c Hc. apply list_elem_of_In, in_map_iff in Hc.
    destruct Hc as (c0 & <- & _). apply sanitize_char_safe.
  - apply length_map.
  - rewrite map_map. apply map_ext. intros c.
    apply sanitize_char_fixed, sanitize_char_safe.
Qed.

(** C10: at every position of a title, in [sanitize_filename] and in the
    copy of its rule in [download_and_merge] alike, a character for which
    [isalnum] holds (whatever its script) is kept, and a character that is
    changed is neither alphanumeric nor a space, underscore or hyphen, and
    becomes an underscore. *)
Theorem sanitize_keeps_unicode_alnum (title : pystr) (i : nat) (c : N) :
  title !! i = Some c ->
  (isalnum c = true -> sanitize_filename title !! i = Some c) /\
  (forall c', sanitize_filename title !! i = Some c' -> c' <> c ->
     isalnum c = false /\ c <> 32%N /\ c <> 95%N /\ c <> 45%N /\ c' = 95%N) /\
  merge_safe_title title !! i = sanitize_filename title !! i.
Proof.
  intros Hi. unfold merge_safe_title, sanitize_filename.
  rewrite !list_lookup_fmap, Hi. cbn. fold (sanitize_char c).
  split; [|split]; [| |reflexivity].
  - intros Ha. unfold sanitize_char. by rewrite Ha.
  - intros c' [= <-] Hne. unfold sanitize_char in *.
    destruct (isalnum c) eqn:Ha; cbn [orb] in *; [done|].
    destruct (char_in c (lit " _-")) eqn:Hc; [done|].
    repeat split; try done; intros ->; discriminate.
Qed.

End SanitizerProperties.

(** The title "Zoë 中文!" keeps its accented and its CJK letter. *)
Lemma sanitize_keeps_unicode_alnum_witness :
  sanitize_filename [90; 111; 235; 32; 20013; 25991; 33]%N !! 2%nat = Some 235%N /\
  sanitize_filename [90; 111; 235; 32; 20013; 25991; 33]%N !! 4%nat = Some 20013%N.
Proof.
  split.
  - apply (sanitize_keeps_unicode_alnum [90; 111; 235; 32; 20013; 25991; 33]%N 2 235%N);
      reflexivity.
  - apply (sanitize_keeps_unicode_alnum [90; 111; 235; 32; 20013; 25991; 33]%N 4 20013%N);
      reflexivity.
Defined.

(** The space of a title is kept, the exclamation mark is not. *)
Example sanitize_test_video :
  sanitize_filename (lit "Test Video!") = lit "Test Video_".
Proof. reflexivity. Qed.

(** ** format_file_size: zero and unparseable input *)

Section FormatFileSizeProperties.
Context {U : UnicodeDB}.

Lemma int_of_str_raises s e : int_of_str s = Raise e -> e = ValueError.
Proof.
  unfold int_of_str.
  destruct (scan_sign (num_strip s)) as [neg body].
  destruct (scan_digits 0 0 body) as [[v n] rest].
  destruct n; [by intros [= <-]|].
  destruct rest; [|by intros [= <-]].
  destruct (_ <? _); [by intros [= <-]|discriminate].
Qed.

Lemma format_file_size_zero : format_file_size (PInt 0) = Ok (lit "0.00 B").
Proof. reflexivity. Qed.

(** C2, amended: for the input 0 [format_file_size] returns "0.00 B"; for
    every string that [int] cannot parse it returns "Unknown Size". *)
Theorem format_file_size_zero_and_unparseable :
  format_file_size (PInt 0) = Ok (lit "0.00 B") /\
  forall s : pystr, (forall z, int_of_str s <> Ok z) ->
    format_file_size (PStr s) = Ok (lit "Unknown Size").
Proof.
  split; [exact format_file_size_zero|].
  intros s Hs. unfold format_file_size. cbn [py_int].
  destruct (int_of_str s) as [z|e] eqn:E.
  - by destruct (Hs z).
  - by rewrite (int_of_str_raises _ _ E).
Qed.

End FormatFileSizeProperties.

(** The sentinel for a string that is no number, for a digit between two
    of the separators that [int] does not skip, and for 4301 digits. *)
Lemma format_file_size_zero_and_unparseable_witness :
  format_file_size (PStr (lit "n/a")) = Ok (lit "Unknown Size") /\
  format_file_size (PStr [28; 55; 31]%N) = Ok (lit "Unknown Size") /\
  format_file_size (PStr (repeat 48%N 4301)) = Ok (lit "Unknown Size").
Proof.
  pose proof (proj2 (format_file_size_zero_and_unparseable (U := sample_unicode))) as H.
  assert (H1 : int_of_str (lit "n/a") = Raise ValueError) by by_evaluation.
  assert (H2 : int_of_str [28; 55; 31]%N = Raise ValueError) by by_evaluation.
  assert (H3 : int_of_str (repeat 48%N 4301) = Raise ValueError) by by_evaluation.
  split; [|split]; apply H; intros z Hz; congruence.
Defined.

(** C2 as stated fails at the input 0: the result is "0.00 B", the very
    string the claim excludes, and not the sentinel. *)
Lemma format_file_size_zero_not_sentinel :
  format_file_size (PInt 0) = Ok (lit "0.00 B") /\
  format_file_size (PInt 0) <> Ok (lit "Unknown Size").
Proof. split; [reflexivity|discriminate]. Qed.

(** ** ProgressEstimator *)

Section ProgressProperties.
Context {U : UnicodeDB} {E : Externals}.

Lemma last_nonempty {A} (a : A) l d d' : List.last (a :: l) d = List.last (a :: l) d'.
Proof. revert a. induction l as [|b l IH]; intros a; [reflexivity|apply (IH b)]. Qed.

Lemma diffs_sum prev sizes : sum_Z (diffs prev sizes) = List.last sizes prev - prev.
Proof.
  revert prev. induction sizes as [|n rest IH]; intros prev.
  - cbn. lia.
  - cbn [diffs sum_Z foldr]. fold (sum_Z (diffs n rest)). rewrite IH.
    destruct rest as [|m rest]; [cbn; lia|].
    rewrite (last_nonempty n (m :: rest) prev n).
    change (List.last (n :: m :: rest) n) with (List.last (m :: rest) n). lia.
Qed.

Lemma progress_loop_sizes total_size lines d0 w sizes :
  Forall2 (fun p n => progress_size p total_size = Ok n)
    (omap percent_of_line lines) sizes ->
  progress_loop total_size lines d0 w =
    (Ok (List.last sizes d0),
     {| w_fs := w_fs w; w_trace := w_trace w ++ map EvBarUpdate (diffs d0 sizes) |}).
Proof.
  revert d0 w sizes. induction lines as [|line lines IH]; intros d0 w sizes H.
  - cbn in H. inversion H; subst. cbn. rewrite app_nil_r. by destruct w.
  - cbn [omap list_omap] in H. cbn [progress_loop]. unfold percent_of_line in H at 1.
    destruct (re_search percent_re line) as [caps|].
    + inversion H as [|p n ps ns Hp Hrest]; subst.
      unfold mbind, M_bind, lift. rewrite Hp. cbn [emit].
      rewrite (IH n _ ns Hrest). cbn [w_fs w_trace diffs map].
      rewrite <- app_assoc. cbn [app]. do 2 f_equal.
      destruct ns as [|m ns]; [reflexivity|apply (last_nonempty m ns)].
    + by apply IH.
Qed.

(** C4, amended: each line with a percentage sets the new size to
    [int(float(p) / 100 * total_size)] (truncated, not rounded), emits the
    difference to the previous size and keeps the new one; so the emitted
    differences are those of the successive sizes, and they add up to the
    last size exactly. *)
Theorem progress_deltas_telescope (total_size : Z) (lines : list pystr) (w : world)
    (sizes : list Z) :
  Forall2 (fun p n => progress_size p total_size = Ok n)
    (omap percent_of_line lines) sizes ->
  exists deltas,
    progress_loop total_size lines 0 w =
      (Ok (List.last sizes 0),
       {| w_fs := w_fs w; w_trace := w_trace w ++ map EvBarUpdate deltas |}) /\
    deltas = diffs 0 sizes /\
    sum_Z deltas = List.last sizes 0.
Proof.
  intros H. exists (diffs 0 sizes). split; [|split].
  - by apply progress_loop_sizes.
  - reflexivity.
  - rewrite diffs_sum. lia.
Qed.

End ProgressProperties.

(** Sizes 28, 28, 12, 100 for 29%, 29%, 12.5%, 100% of 100 bytes: a zero
    and a negative difference on the way, and the sum is the last size. *)
Lemma progress_deltas_telescope_witness :
  exists deltas,
    progress_loop 100 progress_lines 0 (start quiet) =
      (Ok 100, {| w_fs := ∅; w_trace := map EvBarUpdate deltas |}) /\
    deltas = [28; 0; -16; 88] /\
    sum_Z deltas = 100.
Proof.
  apply (progress_deltas_telescope 100 progress_lines (start quiet) [28; 28; 12; 100]).
  repeat constructor.
Defined.

(** C4 as stated fails: at 75% of a total of 1 byte the new size is 0, where
    rounding gives 1. *)
Lemma progress_size_truncates :
  progress_size (lit "75") 1 = Ok 0 /\
  spec_progress_size (lit "75") 1 = Ok 1 /\
  progress_loop 1 [lit "[download]  75% of 1.00B"] 0 (start quiet) =
    (Ok 0, {| w_fs := ∅; w_trace := [EvBarUpdate 0] |}).
Proof. repeat split. Qed.

(** ** The matcher *)

Section RegexProperties.

Lemma rmatch_sound {R} (r : regex) :
  forall s caps (k : pystr -> captures -> option R) x,
    rmatch r s caps k = Some x ->
    exists s' caps', matches r s caps s' caps' /\ k s' caps' = Some x.
Proof.
  induction r as [p|r1 IH1 r2 IH2|r IH|r IH|i r IH]; intros s caps k x; cbn [rmatch].
  - destruct s as [|c s]; [discriminate|].
    destruct (p c) eqn:Hp; [|discriminate].
    intros Hk. exists s, caps. split; [by constructor|done].
  - intros H. apply IH1 in H as (s1 & caps1 & H1 & H).
    apply IH2 in H as (s2 & caps2 & H2 & H).
    exists s2, caps2. split; [by econstructor|done].
  - destruct (rmatch r s caps k) as [y|] eqn:Hr.
    + intros [= ->]. apply IH in Hr as (s' & caps' & H1 & H).
      exists s', caps'. split; [by apply matches_opt_some|done].
    + intros Hk. exists s, caps. split; [apply matches_opt_none|done].
  - generalize (length s). intros fuel. revert s caps.
    induction fuel as [|fuel IHfuel]; intros s caps.
    + intros Hk. exists s, caps. split; [apply matches_star_nil|done].
    + destruct (rmatch r s caps _) as [y|] eqn:Hr.
      * intros [= ->]. apply IH in Hr as (s1 & caps1 & H1 & H).
        destruct (length s1 <? length s)%nat; [|discriminate].
        apply IHfuel in H as (s2 & caps2 & H2 & H).
        exists s2, caps2. split; [by eapply matches_star_cons|done].
      * intros Hk. exists s, caps. split; [apply matches_star_nil|done].
  - intros H. apply IH in H as (s' & caps' & H1 & H).
    eexists s', _. split; [by constructor|done].
Qed.

Lemma matches_suffix r s caps s' caps' :
  matches r s caps s' caps' -> exists pre, s = pre ++ s'.
Proof.
  induction 1 as [p c s caps Hp| r1 r2 s caps s1 caps1 s2 caps2 _ [p1 ->] _ [p2 ->]
                 | r s caps s' caps' _ IH | | | r s caps s1 caps1 s2 caps2 _ [p1 ->] _ [p2 ->]
                 | i r s caps s' caps' _ IH].
  - by exists [c].
  - exists (p1 ++ p2). by rewrite app_assoc.
  - exact IH.
  - by exists [].
  - by exists [].
  - exists (p1 ++ p2). by rewrite app_assoc.
  - exact IH.
Qed.

Lemma matches_other_groups r s caps s' caps' i :
  matches r s caps s' caps' -> has_group i r = false -> caps' !! i = caps !! i.
Proof.
  induction 1 as [| r1 r2 s caps s1 caps1 s2 caps2 _ IH1 _ IH2
                 | r s caps s' caps' _ IH | | | r s caps s1 caps1 s2 caps2 _ IH1 _ IH2
                 | j r s caps s' caps' _ IH]; cbn [has_group]; intros Hg;
    try reflexivity.
  - apply orb_false_iff in Hg as [Hg1 Hg2]. by rewrite IH2, IH1.
  - auto.
  - by rewrite IH2, IH1.
  - apply orb_false_iff in Hg as [Hij Hg]. apply Nat.eqb_neq in Hij.
    rewrite list_lookup_insert_ne by done. auto.
Qed.

(** A run of one class consumes characters of the class and sets nothing. *)
Lemma matches_star_chr p s caps s' caps' :
  matches (Star (Chr p)) s caps s' caps' ->
  caps' = caps /\ exists pre, s = pre ++ s' /\ forallb p pre = true.
Proof.
  remember (Star (Chr p)) as r eqn:Hr. induction 1; try discriminate.
  - split; [done|]. by exists [].
  - injection Hr as ->.
    match goal with H : matches (Chr p) _ _ _ _ |- _ =>
      inversion H as [? c ? ? Hc| | | | | |]; subst end.
    destruct IHmatches2 as (-> & pre & -> & Hpre); [done|].
    split; [done|]. exists (c :: pre). split; [done|]. cbn. by rewrite Hc.
Qed.

Lemma matches_plus_chr p s caps s' caps' :
  matches (Plus (Chr p)) s caps s' caps' ->
  caps' = caps /\ exists c pre, s = c :: pre ++ s' /\ p c = true /\ forallb p pre = true.
Proof.
  unfold Plus. inversion 1 as [|? ? ? ? s1 caps1 ? ? H1 H2| | | | |]; subst.
  inversion H1 as [? c ? ? Hc| | | | | |]; subst.
  apply matches_star_chr in H2 as (-> & pre & -> & Hpre).
  split; [done|]. by exists c, pre.
Qed.

Lemma matches_cat_inv r1 r2 s caps s2 caps2 :
  matches (Cat r1 r2) s caps s2 caps2 ->
  exists s1 caps1, matches r1 s caps s1 caps1 /\ matches r2 s1 caps1 s2 caps2.
Proof. inversion 1; subst. eauto. Qed.

Lemma matches_group_inv i r s caps s' caps2 :
  matches (Group i r) s caps s' caps2 ->
  exists caps', matches r s caps s' caps' /\
    caps2 = <[i := Some (take (length s - length s') s)]> caps'.
Proof. inversion 1; subst. eauto. Qed.

Lemma take_while_app {A} (p : A -> bool) pre c rest :
  forallb p pre = true -> p c = false -> take_while p (pre ++ c :: rest) = pre.
Proof.
  induction pre as [|a pre IH]; cbn; intros Hpre Hc.
  - by rewrite Hc.
  - apply andb_true_iff in Hpre as [-> Hpre]. by rewrite IH.
Qed.

End RegexProperties.

(** ** FormatCatalogParser *)

Section FormatCatalogProperties.
Context {U : UnicodeDB} {E : Externals}.

Lemma between_spec lo hi c : between lo hi c = true <-> (lo <= c <= hi)%N.
Proof. unfold between. rewrite andb_true_iff, !N.leb_le. tauto. Qed.

Lemma isdecimal_not_space c : isdecimal c = true -> isspace c = false.
Proof.
  unfold isdecimal, decimal_value, isspace.
  destruct (c <? 128)%N.
  - destruct (between 48 57 c) eqn:Hd; [|discriminate]. intros _.
    apply between_spec in Hd.
    apply orb_false_iff; split; apply not_true_is_false; rewrite between_spec; lia.
  - destruct (uni_decimal c) as [d|] eqn:Hd; [|discriminate]. intros _.
    by apply (uni_decimal_not_space c d).
Qed.

(** The first group of a matching line is its leading run of digits. *)
Lemma format_line_id line caps :
  re_match format_line_re line = Some caps ->
  group caps 1 = Some (take_while isdecimal line) /\ take_while isdecimal line <> [].
Proof.
  unfold re_match. intros H.
  apply rmatch_sound in H as (s' & caps' & Hm & [= <-]).
  unfold format_line_re in Hm.
  apply matches_cat_inv in Hm as (s1 & caps1 & H1 & Hm).
  apply matches_group_inv in H1 as (caps0 & H1 & ->).
  apply matches_plus_chr in H1 as (-> & c & pre & -> & Hc & Hpre).
  apply matches_cat_inv in Hm as (s2 & caps2 & H2 & Hm).
  apply matches_plus_chr in H2 as (-> & sp & pre' & -> & Hsp & _).
  apply (matches_other_groups _ _ _ _ _ 1) in Hm; [|reflexivity].
  unfold group. rewrite Hm.
  rewrite list_lookup_insert_eq by (cbn; lia). cbn [default].
  assert (Hnd : isdecimal sp = false).
  { destruct (isdecimal sp) eqn:Hd; [|done].
    apply isdecimal_not_space in Hd. congruence. }
  change (c :: pre ++ sp :: pre' ++ s2) with ((c :: pre) ++ sp :: pre' ++ s2).
  rewrite take_while_app; [|by cbn; rewrite Hc|done].
  split; [|done]. f_equal.
  rewrite length_app.
  replace (length (c :: pre) + length (sp :: pre' ++ s2) - length (sp :: pre' ++ s2))%nat
    with (length (c :: pre)) by lia.
  by rewrite take_app_length.
Qed.

Lemma print_format_rows_trace (ls : list pystr) (w : world) :
  print_format_rows ls w =
    (Ok tt, {| w_fs := w_fs w; w_trace := w_trace w ++ map EvPrint (omap row_of_line ls) |}).
Proof.
  revert w. induction ls as [|line ls IH]; intros w.
  - cbn. rewrite app_nil_r. by destruct w.
  - cbn [print_format_rows omap list_omap]. unfold row_of_line at 1.
    unfold mbind, M_bind.
    destruct (re_match format_line_re line) as [caps|]; cbn.
    + rewrite IH. cbn. by rewrite <- app_assoc.
    + by rewrite IH.
Qed.

(** C3, amended: when the tool exits with 0, the operation prints, under
    the table header, one row for each line after the first three that has
    the expected shape, in the order of the lines, and the first field of
    each row is the leading integer of its line; the other lines are
    skipped; the value returned is the text of the listing. *)
Theorem get_video_formats_rows (video_url : pystr) (w : world) (proc : completed)
    (fs' : fs_state) :
  spawn [YT_DLP_PATH; lit "-F"; video_url] (w_fs w) = (Ok proc, fs') ->
  returncode proc = 0 ->
  let data := drop 3 (split_on NL (strip (stdout proc))) in
  get_video_formats video_url w =
    (Ok (Some (stdout proc)),
     {| w_fs := fs';
        w_trace := w_trace w ++ [EvSpawn [YT_DLP_PATH; lit "-F"; video_url]] ++
                   map EvPrint table_header ++ map EvPrint (omap row_of_line data) |}) /\
  Forall2 (fun line row => exists caps,
             re_match format_line_re line = Some caps /\ row = format_row caps /\
             group caps 1 = Some (take_while isdecimal line) /\
             take_while isdecimal line <> [])
    (List.filter is_format_line data) (omap row_of_line data).
Proof.
  intros Hs Hrc data. split.
  - unfold get_video_formats, subprocess_run, mbind, M_bind, print, emit.
    rewrite Hs, Hrc. cbn [Z.eqb negb w_fs w_trace].
    rewrite print_format_rows_trace. cbn [w_fs w_trace mret M_ret].
    do 2 f_equal. fold data. rewrite <- !app_assoc. reflexivity.
  - induction data as [|line data IH]; [constructor|].
    cbn [List.filter omap list_omap]. unfold is_format_line at 1, row_of_line at 1.
    destruct (re_match format_line_re line) as [caps|] eqn:Hm; [|exact IH].
    constructor; [|exact IH].
    exists caps. destruct (format_line_id _ _ Hm). done.
Qed.

End FormatCatalogProperties.

Lemma get_video_formats_rows_witness :
  let data := drop 3 (split_on NL (strip listing)) in
  get_video_formats url (start (clip 0)) =
    (Ok (Some listing),
     {| w_fs := ∅;
        w_trace := [] ++ [EvSpawn [YT_DLP_PATH; lit "-F"; url]] ++
                   map EvPrint table_header ++ map EvPrint (omap row_of_line data) |}) /\
  Forall2 (fun line row => exists caps,
             re_match format_line_re line = Some caps /\ row = format_row caps /\
             group caps 1 = Some (take_while isdecimal line) /\
             take_while isdecimal line <> [])
    (List.filter is_format_line data) (omap row_of_line data).
Proof.
  exact (get_video_formats_rows url (start (clip 0)) (sc_listing (clip 0)) ∅
           eq_refl eq_refl).
Defined.

(** C3 as stated fails: on a listing with four rows of the expected shape
    the operation returns the text of the listing, 582 characters, and no
    records; the rows only reach the console. *)
Lemma get_video_formats_returns_text :
  fst (get_video_formats url (start (clip 0))) = Ok (Some listing) /\
  length listing = 582%nat /\
  length (List.filter is_format_line (drop 3 (split_on NL (strip listing)))) = 4%nat /\
  omap row_of_line (drop 3 (split_on NL (strip listing))) =
    [lit "140      m4a    audio        N/A    N/A        only      |   3.27MiB 129k https | audio only  mp4a.40.2";
     lit "22       mp4    1280x720     N/A    N/A        30   |  18.40MiB 754k https | avc1.64001F mp4a.40.2";
     lit "229      mp4    426x240      N/A    N/A        30   |   5.11MiB 210k m3u8  | avc1.4D4015 video only";
     lit "137      mp4    1920x1080    N/A    N/A        30   |  85.21MiB 3480k https | avc1.640028 video only"].
Proof. repeat split; vm_compute; reflexivity. Qed.

(** ** The video-only workflow *)

Section WorkflowProperties.
Context {U : UnicodeDB} {E : Externals}.

Lemma renames_app tr1 tr2 : renames (tr1 ++ tr2) = renames tr1 ++ renames tr2.
Proof. apply omap_app. Qed.

Lemma get_video_info_renames video_url w r w1 :
  get_video_info video_url w = (r, w1) -> renames (w_trace w1) = renames (w_trace w).
Proof.
  unfold get_video_info, subprocess_run, mbind, M_bind, print, emit, lift.
  destruct (spawn _ _) as [[proc|e] fs1].
  - destruct (negb _).
    + intros [= _ <-]. cbn. rewrite <- app_assoc, renames_app. cbn. by rewrite app_nil_r.
    + destruct (json_loads _) as [info|].
      * destruct (video_info_of info); intros [= _ <-]; cbn;
          rewrite renames_app; cbn; by rewrite app_nil_r.
      * intros [= _ <-]. cbn. rewrite <- app_assoc, renames_app. cbn. by rewrite app_nil_r.
  - intros [= _ <-]. cbn. rewrite renames_app. cbn. by rewrite app_nil_r.
Qed.

Lemma progress_loop_renames total_size lines d w r w1 :
  progress_loop total_size lines d w = (r, w1) ->
  renames (w_trace w1) = renames (w_trace w) /\ w_fs w1 = w_fs w.
Proof.
  revert d w. induction lines as [|line lines IH]; intros d w; cbn [progress_loop].
  - by intros [= _ <-].
  - destruct (re_search percent_re line) as [caps|]; [|apply IH].
    unfold mbind, M_bind, lift, emit.
    destruct (progress_size _ _) as [n|e]; [|by intros [= _ <-]].
    intros H. apply IH in H as [-> ->]. cbn. rewrite renames_app. cbn.
    by rewrite app_nil_r.
Qed.

Lemma download_with_progress_renames command output_path total_size w r w1 :
  download_with_progress command output_path total_size w = (r, w1) ->
  renames (w_trace w1) = renames (w_trace w).
Proof.
  unfold download_with_progress, subprocess_run, mbind, M_bind, emit.
  destruct (spawn _ _) as [[proc|e] fs1].
  - destruct (progress_loop _ _ _ _) as [[d|e] wp] eqn:Hp;
      apply progress_loop_renames in Hp as [Hp _]; cbn in Hp;
      intros [= _ <-]; cbn; rewrite ?renames_app, Hp, !renames_app; cbn;
      by rewrite !app_nil_r.
  - intros [= _ <-]. cbn. rewrite renames_app. cbn. by rewrite app_nil_r.
Qed.

(** C7: once the download process of the video-only workflow has exited
    with [code], the file is renamed from "<sanitized title>.mp4" to
    "<sanitized title>_<resolution>.mp4" exactly when [code] is 0 (and that
    is the only rename of the run); on any other code the workflow reports
    the failure and leaves the file system as the tool left it. *)
Theorem download_video_renames_iff_zero (video_url format_id : pystr) (w w1 w2 : world)
    (video_info : gmap pystr pyval) (title : pystr) (filesize resolution : pyval)
    (total_size code : Z) :
  get_video_info video_url w = (Ok (Some video_info), w1) ->
  video_info !! lit "title" = Some (PStr title) ->
  video_info !! lit "filesize" = Some filesize ->
  video_info !! lit "resolution" = Some resolution ->
  plain_total_size filesize = Ok total_size ->
  let safe_title := sanitize_filename title in
  let video_output := path_join DOWNLOAD_DIR (safe_title ++ lit ".mp4") in
  let new_filename := safe_title ++ lit "_" ++ py_str resolution ++ lit ".mp4" in
  let new_path := path_join DOWNLOAD_DIR new_filename in
  download_with_progress
    [YT_DLP_PATH; lit "-f"; format_id; lit "-o"; video_output; video_url;
     lit "--embed-subs"; lit "--sub-lang"; lit "en"] video_output total_size w1 =
    (Ok code, w2) ->
  let run := download_video video_url format_id w in
  renames (w_trace (snd run)) =
    renames (w_trace w) ++ (if code =? 0 then [(video_output, new_path)] else []) /\
  (code <> 0 ->
   run = (Ok tt,
          {| w_fs := w_fs w2;
             w_trace := w_trace w2 ++
                        [EvPrint ([NL; cross_mark] ++ lit " Video download failed.")] |})) /\
  (code = 0 ->
   run = match os_rename video_output new_path (w_fs w2) with
         | Ok fs' =>
             (Ok tt,
              {| w_fs := fs';
                 w_trace := w_trace w2 ++
                   [EvRename video_output new_path;
                    EvPrint ([NL; check_mark] ++ lit " Video downloaded successfully as:" ++
                             [NL] ++ new_filename)] |})
         | Raise e =>
             (Raise e,
              {| w_fs := w_fs w2;
                 w_trace := w_trace w2 ++ [EvRename video_output new_path] |})
         end).
Proof.
  intros Hinfo Htitle Hsize Hres Htotal safe_title video_output new_filename new_path
    Hdl run.
  assert (Hr2 : renames (w_trace w2) = renames (w_trace w)).
  { rewrite (download_with_progress_renames _ _ _ _ _ _ Hdl).
    apply (get_video_info_renames _ _ _ _ Hinfo). }
  assert (Hrun : run =
    if code =? 0 then
      (_ ← rename video_output new_path;
       print ([NL; check_mark] ++ lit " Video downloaded successfully as:" ++
              [NL] ++ new_filename)) w2
    else print ([NL; cross_mark] ++ lit " Video download failed.") w2).
  { unfold run, download_video, mbind at 1 2 3 4 5, M_bind at 1 2 3 4 5, lift.
    rewrite Hinfo. cbn [subscript]. rewrite Htitle. cbn [py_iter].
    rewrite Hsize, Htotal. fold safe_title video_output.
    unfold mbind at 1, M_bind at 1. rewrite Hdl.
    destruct (code =? 0); [|reflexivity].
    unfold mbind at 1, M_bind at 1, lift. rewrite Hres. reflexivity. }
  rewrite Hrun. clear Hrun run.
  unfold mbind, M_bind, rename, print, emit.
  destruct (Z.eqb_spec code 0) as [->|Hne].
  - destruct (os_rename _ _ _) as [fs'|e]; cbn [snd w_trace w_fs];
      rewrite <- ?app_assoc; cbn [app];
      (split; [|split; [done|reflexivity]]);
      rewrite !renames_app, Hr2; reflexivity.
  - cbn [snd w_trace w_fs]. split; [|split; [reflexivity|done]].
    rewrite renames_app, Hr2. reflexivity.
Qed.

End WorkflowProperties.

Lemma download_video_renames_iff_zero_witness :
  renames (w_trace (snd (download_video url (lit "22") (start (unsized 0))))) =
    [(lit "/home/user/Downloads/Youtube Downloads/Test Video_.mp4",
      lit "/home/user/Downloads/Youtube Downloads/Test Video__1280x720.mp4")] /\
  renames (w_trace (snd (download_video url (lit "22") (start (unsized 1))))) = [].
Proof.
  pose (video_output := lit "/home/user/Downloads/Youtube Downloads/Test Video_.mp4").
  pose (command := [YT_DLP_PATH; lit "-f"; lit "22"; lit "-o"; video_output; url;
                    lit "--embed-subs"; lit "--sub-lang"; lit "en"]).
  split.
  - pose (w1 := snd (get_video_info url (start (unsized 0)))).
    pose (w2 := snd (download_with_progress command video_output 0 w1)).
    refine (eq_trans
              (proj1 (download_video_renames_iff_zero url (lit "22") (start (unsized 0))
                        w1 w2 unsized_video_info (lit "Test Video!")
                        (PStr (lit "Unknown Size")) (PStr (lit "1280x720")) 0 0
                        _ _ _ _ _ _)) _); by_evaluation.
  - pose (w1 := snd (get_video_info url (start (unsized 1)))).
    pose (w2 := snd (download_with_progress command video_output 0 w1)).
    refine (eq_trans
              (proj1 (download_video_renames_iff_zero url (lit "22") (start (unsized 1))
                        w1 w2 unsized_video_info (lit "Test Video!")
                        (PStr (lit "Unknown Size")) (PStr (lit "1280x720")) 0 1
                        _ _ _ _ _ _)) _); by_evaluation.
Defined.

(** ** MetadataResolver *)

Section MetadataProperties.
Context {U : UnicodeDB} {E : Externals}.

(** X1: once the tool has run, [get_video_info] returns its explicit
    failure, [None], exactly when the tool exits with a code other than 0 or
    its output is not JSON. *)
Lemma get_video_info_none_iff (video_url : pystr) (w : world) (proc : completed)
    (fs' : fs_state) :
  spawn [YT_DLP_PATH; lit "--dump-json"; video_url] (w_fs w) = (Ok proc, fs') ->
  fst (get_video_info video_url w) = Ok None <->
  returncode proc <> 0 \/ json_loads (stdout proc) = None.
Proof.
  intros Hs. unfold get_video_info, subprocess_run, mbind, M_bind, print, emit, lift.
  rewrite Hs. destruct (Z.eqb_spec (returncode proc) 0) as [H0|H0]; cbn [negb].
  - destruct (json_loads (stdout proc)) as [info|]; cbn.
    + destruct (video_info_of info); cbn; split; try discriminate.
      all: intros [?|?]; done.
    + split; [by right|done].
  - cbn. split; [by left|done].
Qed.

(** X2: in the metadata that [get_video_info] builds, a title, duration,
    upload date or resolution that the JSON object lacks is its "Unknown
    ..." sentinel. *)
Lemma video_info_of_defaults (info video_info : gmap pystr pyval) :
  video_info_of info = Ok video_info ->
  (info !! lit "title" = None ->
   video_info !! lit "title" = Some (PStr (lit "Unknown Title"))) /\
  (info !! lit "duration_string" = None ->
   video_info !! lit "duration" = Some (PStr (lit "Unknown Duration"))) /\
  (info !! lit "upload_date" = None ->
   video_info !! lit "upload_date" = Some (PStr (lit "Unknown Date"))) /\
  (info !! lit "resolution" = None ->
   video_info !! lit "resolution" = Some (PStr (lit "Unknown"))).
Proof.
  unfold video_info_of, mbind, result_bind.
  set (date := match info !! lit "upload_date" with
               | Some (PStr d) => strptime_strftime d
               | Some _ => Raise TypeError
               | None => Ok (lit "Unknown Date")
               end).
  destruct date as [d|] eqn:Hd; [|discriminate].
  destruct (format_file_size _) as [size|]; [|discriminate].
  intros [= <-]. unfold dict_get. repeat split; intros Hnone.
  - rewrite lookup_insert_eq. by rewrite Hnone.
  - rewrite lookup_insert_ne by done. rewrite lookup_insert_eq. by rewrite Hnone.
  - do 3 (rewrite lookup_insert_ne by done). rewrite lookup_insert_eq.
    subst date. rewrite Hnone in Hd. by injection Hd as <-.
  - do 4 (rewrite lookup_insert_ne by done). rewrite lookup_insert_eq. by rewrite Hnone.
Qed.

(** X3: dropping the title, duration, upload date or resolution from a
    JSON object that is accepted leaves it accepted: a missing field never
    makes the metadata fail. *)
Lemma video_info_of_missing (info video_info : gmap pystr pyval) (key : string) :
  video_info_of info = Ok video_info ->
  key = "title"%string \/ key = "duration_string"%string \/
  key = "upload_date"%string \/ key = "resolution"%string ->
  exists video_info', video_info_of (delete (lit key) info) = Ok video_info'.
Proof.
  unfold video_info_of, mbind, result_bind, dict_get. intros H Hkey.
  destruct (info !! lit "upload_date") as [date|] eqn:Hd.
  - destruct date as [| | | |d]; try discriminate.
    destruct (strptime_strftime d) as [d'|] eqn:Hd'; [|discriminate].
    destruct (format_file_size _) as [size|] eqn:Hsize; [|discriminate].
    destruct Hkey as [-> | [-> | [-> | ->]]].
    all: try (rewrite (lookup_delete_ne info (lit _) (lit "upload_date")) by done;
              rewrite (lookup_delete_ne info (lit _) (lit "filesize_approx")) by done;
              rewrite Hd, Hd', Hsize; eauto).
    rewrite lookup_delete_eq.
    rewrite (lookup_delete_ne info (lit _) (lit "filesize_approx")) by done.
    rewrite Hsize. eauto.
  - destruct (format_file_size _) as [size|] eqn:Hsize; [|discriminate].
    destruct Hkey as [-> | [-> | [-> | ->]]].
    all: try (rewrite (lookup_delete_ne info (lit _) (lit "upload_date")) by done;
              rewrite (lookup_delete_ne info (lit _) (lit "filesize_approx")) by done;
              rewrite Hd, Hsize; eauto).
    rewrite lookup_delete_eq.
    rewrite (lookup_delete_ne info (lit _) (lit "filesize_approx")) by done.
    rewrite Hsize. eauto.
Qed.

End MetadataProperties.

(** C8 fails on the code: the tool exits with 0 and prints a JSON object
    whose [filesize_approx] is [null]; [int(None)] raises a [TypeError] that
    neither [except] clause catches, so no metadata comes back although the
    tool succeeded and its output was parsed. *)
Theorem get_video_info_null_size_raises :
  @json_loads (sample_externals null_size) (lit "JSON") =
    Some (<[lit "title" := PStr (lit "Test Video!")]> (
          <[lit "filesize_approx" := PNone]> ∅)) /\
  format_file_size PNone = Raise TypeError /\
  get_video_info url (start null_size) =
    (Raise TypeError,
     {| w_fs := ∅; w_trace := [EvSpawn [YT_DLP_PATH; lit "--dump-json"; url]] |}).
Proof. repeat split. Qed.

(** ** The merge workflow *)

(** C5 fails on the code: the listing has a row for format 22 (1280x720)
    and, after it, a row for format 229 (426x240).  For the chosen video
    format 22 the loop tests [line.startswith("22")], which the row of 229
    passes as well, and the last such row decides: the download is started
    with an output path named after 426x240, not after the resolution of
    the row whose id is 22. *)
Theorem merge_resolution_of_other_row :
  (exists caps,
     re_match format_line_re
       (lit "22  mp4   1280x720   30   |  18.40MiB 754k https | avc1.64001F mp4a.40.2") =
       Some caps /\
     group caps 1 = Some (lit "22") /\ group caps 3 = Some (lit "1280x720")) /\
  find_resolution (lit "22") (split_on NL listing) (lit "UnknownRes") = lit "426x240" /\
  spawns (w_trace (snd (download_and_merge url (lit "22") (lit "140") (start (clip 0))))) =
    [[YT_DLP_PATH; lit "--dump-json"; url];
     [YT_DLP_PATH; lit "-F"; url];
     [YT_DLP_PATH; lit "-f"; lit "22+140"; lit "-o";
      lit "/home/user/Downloads/Youtube Downloads/Test Video__(426x240).mp4"; url;
      lit "--embed-subs"; lit "--sub-lang"; lit "en"]].
Proof.
  split; [|split].
  - eexists. split; [vm_compute; reflexivity|]. split; reflexivity.
  - vm_compute; reflexivity.
  - vm_compute; reflexivity.
Qed.

(** With no row that starts with the chosen id the name falls back on the
    sentinel. *)
Example merge_resolution_sentinel :
  find_resolution (lit "999") (split_on NL listing) (lit "UnknownRes") = lit "UnknownRes".
Proof. vm_compute; reflexivity. Qed.

(** ** The total size handed to the progress bar *)

(** C1 fails on the code: for a video of 15 MiB the metadata holds the size
    string "15.00 MB".  The merge workflow turns it back into 15728640 bytes,
    but the video-only and the audio-only workflow call [int("15.00")],
    which raises a [ValueError] that nothing catches: both stop before the
    download is started. *)
Theorem plain_total_size_raises :
  format_file_size (PInt 15728640) = Ok (lit "15.00 MB") /\
  plain_total_size (PStr (lit "15.00 MB")) = Raise ValueError /\
  (merge_total_size (PStr (lit "15.00 MB")) ≫= int_of_number) = Ok 15728640 /\
  download_video url (lit "22") (start (clip 0)) =
    (Raise ValueError,
     {| w_fs := ∅; w_trace := [EvSpawn [YT_DLP_PATH; lit "--dump-json"; url]] |}) /\
  download_audio url (lit "140") (start (clip 0)) =
    (Raise ValueError,
     {| w_fs := ∅; w_trace := [EvSpawn [YT_DLP_PATH; lit "--dump-json"; url]] |}).
Proof. repeat split; vm_compute; reflexivity. Qed.

(** ** binary64 facts behind format_file_size *)

Section Binary64.

Lemma digits2_pos_size p : digits2_pos p = Pos.size p.
Proof. induction p; cbn; congruence. Qed.

Lemma digits2_pos_bounds p :
  2 ^ (Z.pos (digits2_pos p) - 1) <= Z.pos p < 2 ^ Z.pos (digits2_pos p).
Proof.
  assert (Hstep : forall d : positive,
            2 ^ (Z.pos (Pos.succ d) - 1) = 2 * 2 ^ (Z.pos d - 1) /\
            2 ^ Z.pos (Pos.succ d) = 2 * 2 ^ Z.pos d).
  { intros d. rewrite Pos2Z.inj_succ. split.
    - replace (Z.succ (Z.pos d) - 1) with (Z.succ (Z.pos d - 1)) by lia.
      apply Z.pow_succ_r. lia.
    - apply Z.pow_succ_r. lia. }
  induction p as [p IH|p IH|]; cbn [digits2_pos].
  - destruct (Hstep (digits2_pos p)) as [-> ->]. lia.
  - destruct (Hstep (digits2_pos p)) as [-> ->]. lia.
  - cbn. lia.
Qed.

Lemma digits2_pos_iter_xO p n :
  digits2_pos (Pos.iter xO p n) = (digits2_pos p + n)%positive.
Proof.
  induction n as [|n IH] using Pos.peano_ind.
  - cbn. lia.
  - rewrite Pos.iter_succ. cbn [digits2_pos]. rewrite IH. lia.
Qed.

Lemma Zpos_iter_xO p n : Z.pos (Pos.iter xO p n) = Z.pos p * 2 ^ Z.pos n.
Proof.
  induction n as [|n IH] using Pos.peano_ind.
  - cbn. lia.
  - rewrite Pos.iter_succ, Pos2Z.inj_xO, IH, Pos2Z.inj_succ, Z.pow_succ_r by lia. lia.
Qed.

(** A mantissa of 53 bits with an exponent in range is left as it is. *)
Lemma binary_round_aux_canonical m e :
  digits2_pos m = 53%positive -> -1074 <= e <= 971 ->
  binary_round_aux prec emax false (Z.pos m) e loc_Exact = S754_finite false m e.
Proof.
  intros Hd He. unfold binary_round_aux, shr_fexp. cbn [shr_record_of_loc Zdigits2].
  rewrite Hd.
  replace (fexp prec emax (53 + e) - e) with 0 by (unfold fexp, emin, prec, emax; lia).
  cbn [shr shr_m loc_of_shr_record round_nearest_even Zdigits2]. rewrite Hd.
  replace (fexp prec emax (53 + e) - e) with 0 by (unfold fexp, emin, prec, emax; lia).
  cbn [shr shr_m].
  replace (e <=? emax - prec) with true by (unfold emax, prec; lia).
  reflexivity.
Qed.

Lemma binary_round_aux_even m e :
  digits2_pos m = 53%positive -> -1075 <= e <= 970 ->
  binary_round_aux prec emax false (Z.pos m~0) e loc_Exact = S754_finite false m (e + 1).
Proof.
  intros Hd He. unfold binary_round_aux, shr_fexp. cbn [shr_record_of_loc Zdigits2 digits2_pos].
  rewrite Hd.
  replace (fexp prec emax (Z.pos (Pos.succ 53) + e) - e) with 1
    by (unfold fexp, emin, prec, emax; lia).
  cbn [shr SpecFloat.iter_pos shr_1 orb shr_m loc_of_shr_record round_nearest_even Zdigits2].
  rewrite Hd.
  replace (fexp prec emax (53 + (e + 1)) - (e + 1)) with 0
    by (unfold fexp, emin, prec, emax; lia).
  cbn [shr shr_m].
  replace (e + 1 <=? emax - prec) with true by (unfold emax, prec; lia).
  reflexivity.
Qed.

(** The double of a positive integer of at most 53 bits is the integer. *)
Lemma float_of_Z_exact p :
  (digits2_pos p <= 53)%positive ->
  exists m,
    float_of_Z (Z.pos p) = S754_finite false m (Z.pos (digits2_pos p) - 53) /\
    digits2_pos m = 53%positive /\
    Z.pos m = Z.pos p * 2 ^ (53 - Z.pos (digits2_pos p)).
Proof.
  intros Hd. unfold float_of_Z, binary_normalize, binary_round, shl_align.
  replace (fexp prec emax (Z.pos (digits2_pos p) + 0) - 0)
    with (Z.pos (digits2_pos p) - 53) by (unfold fexp, emin, prec, emax; lia).
  replace (fexp prec emax (Z.pos (digits2_pos p) + 0))
    with (Z.pos (digits2_pos p) - 53) by (unfold fexp, emin, prec, emax; lia).
  destruct (Z.pos (digits2_pos p) - 53) as [|q|q] eqn:Hq; [| lia |].
  - exists p. assert (digits2_pos p = 53%positive) as H53 by lia.
    rewrite binary_round_aux_canonical by (done || lia).
    rewrite H53. repeat split. cbn. lia.
  - exists (Pos.iter xO p q).
    assert (digits2_pos (Pos.iter xO p q) = 53%positive) as H53
      by (rewrite digits2_pos_iter_xO; lia).
    rewrite binary_round_aux_canonical by (done || lia).
    repeat split; [done|]. rewrite Zpos_iter_xO. f_equal. f_equal. lia.
Qed.

(** Dividing a double by 1024 lowers its exponent by 10. *)
Lemma fdiv_1024 m e :
  digits2_pos m = 53%positive -> -1063 <= e <= 981 ->
  fdiv (S754_finite false m e) float_1024 = S754_finite false m (e - 10).
Proof.
  intros Hd He. unfold fdiv, float_1024, SFdiv, SFdiv_core_binary.
  cbn [Zdigits2 xorb]. rewrite Hd.
  change (digits2_pos 4503599627370496) with 53%positive.
  replace (Z.min (fexp prec emax (53 + e - (53 + -42))) (e - -42)) with (e - 11)
    by (unfold fexp, emin, prec, emax; lia).
  replace (e - -42 - (e - 11)) with 53 by lia.
  rewrite Z.shiftl_mul_pow2 by lia.
  replace (Z.pos m * 2 ^ 53) with (Z.pos m~0 * 4503599627370496) by lia.
  pose proof (Z.div_mul (Z.pos m~0) 4503599627370496 ltac:(lia)) as Hq.
  pose proof (Z.mod_mul (Z.pos m~0) 4503599627370496 ltac:(lia)) as Hr.
  unfold Z.div, Z.modulo in Hq, Hr.
  destruct (Z.div_eucl (Z.pos m~0 * 4503599627370496) 4503599627370496) as [q r].
  subst q r. cbn [new_location Z.even new_location_even Z.eqb].
  rewrite binary_round_aux_even by (done || lia).
  f_equal. lia.
Qed.

(** A double with a full mantissa is below 1024 when its exponent is below -42. *)
Lemma flt_1024 m e :
  digits2_pos m = 53%positive ->
  flt (S754_finite false m e) float_1024 = (e <? -42).
Proof.
  intros Hd. unfold flt, SFltb, SFcompare, float_1024.
  destruct (Z.compare_spec e (-42)) as [->|Hlt|Hgt].
  - pose proof (digits2_pos_bounds m) as Hb. rewrite Hd in Hb.
    change (2 ^ (53 - 1)) with 4503599627370496 in Hb.
    rewrite Pos.compare_cont_spec.
    destruct (Pos.compare_spec m 4503599627370496) as [Hc|Hc|Hc]; try reflexivity.
    exfalso. apply Pos2Z.pos_lt_pos in Hc. lia.
  - symmetry. apply Z.ltb_lt. lia.
  - symmetry. apply Z.ltb_ge. lia.
Qed.

Lemma size_loop_float us m e :
  digits2_pos m = 53%positive ->
  -1063 + 10 * Z.of_nat (length us) <= e <= 981 ->
  size_loop us (NFloat (S754_finite false m e)) = Ok (scaled us m e).
Proof.
  intros Hd. revert e. induction us as [|u us IH]; intros e He; [reflexivity|].
  cbn [size_loop lt_1024 scaled]. rewrite flt_1024 by done.
  destruct (e <? -42); [reflexivity|].
  cbn [div_1024 mbind result_bind]. rewrite fdiv_1024 by (done || cbn [length] in He; lia).
  apply IH. cbn [length] in He. lia.
Qed.

Lemma nearest_even_scale n d c :
  0 < d -> 0 < c -> nearest_even (n * c) (d * c) = nearest_even n d.
Proof.
  intros Hd Hc. unfold nearest_even.
  rewrite Z.div_mul_cancel_r by lia.
  rewrite Z.mul_mod_distr_r by lia.
  rewrite Z.mul_assoc, <- Zmult_compare_compat_r by lia.
  reflexivity.
Qed.

Lemma nearest_even_le n d : nearest_even n d <= n / d + 1.
Proof.
  unfold nearest_even. destruct (_ ?= _); [destruct (Z.even _)| |]; lia.
Qed.

(** The mantissa and exponent of a byte count below 2^53 render as the
    count divided by 1024 as often as the exponent was lowered by 10. *)
Lemma hundredths_scaled (p m : positive) (k : Z) :
  (digits2_pos p <= 53)%positive ->
  Z.pos m = Z.pos p * 2 ^ (53 - Z.pos (digits2_pos p)) ->
  0 <= k ->
  hundredths m (Z.pos (digits2_pos p) - 53 - 10 * k) =
    if (Z.pos (digits2_pos p) - 53 - 10 * k <? 0)
    then nearest_even (100 * Z.pos p) (1024 ^ k)
    else 100 * Z.pos p.
Proof.
  intros Hd Hm Hk. unfold hundredths. set (d := Z.pos (digits2_pos p)) in *.
  assert (1 <= d <= 53) by lia.
  destruct (Z.ltb_spec (d - 53 - 10 * k) 0) as [Hneg|Hpos].
  - replace (0 <=? d - 53 - 10 * k) with false by (symmetry; apply Z.leb_gt; lia).
    rewrite Hm.
    replace (- (d - 53 - 10 * k)) with (10 * k + (53 - d)) by lia.
    rewrite Z.pow_add_r, Z.pow_mul_r by lia. change (2 ^ 10) with 1024.
    rewrite Z.mul_assoc. apply nearest_even_scale.
    + apply Z.pow_pos_nonneg; lia.
    + apply Z.pow_pos_nonneg; lia.
  - assert (d = 53 /\ k = 0) as [Hd53 ->] by lia.
    replace (d - 53 - 10 * 0) with 0 by lia. cbn [Z.leb Z.compare].
    rewrite Hm, Hd53. cbn. lia.
Qed.

Lemma digits2_pos_le p n : 0 <= n -> Z.pos p < 2 ^ n -> Z.pos (digits2_pos p) <= n.
Proof.
  intros Hn Hp. pose proof (digits2_pos_bounds p) as [Hlo _].
  destruct (Z.le_gt_cases (Z.pos (digits2_pos p)) n) as [|Hgt]; [done|].
  assert (2 ^ n <= 2 ^ (Z.pos (digits2_pos p) - 1)) by (apply Z.pow_le_mono_r; lia).
  lia.
Qed.

Lemma digits2_pos_gt p n : 0 <= n -> 2 ^ n <= Z.pos p -> n < Z.pos (digits2_pos p).
Proof.
  intros Hn Hp. pose proof (digits2_pos_bounds p) as [_ Hhi].
  destruct (Z.lt_ge_cases n (Z.pos (digits2_pos p))) as [|Hge]; [done|].
  assert (2 ^ Z.pos (digits2_pos p) <= 2 ^ n) by (apply Z.pow_le_mono_r; lia).
  lia.
Qed.

Lemma nearest_even_1 n : nearest_even n 1 = n.
Proof. unfold nearest_even. rewrite Z.div_1_r, Z.mod_1_r. reflexivity. Qed.

End Binary64.

(** ** FormatFileSize: scaling *)

Section Scaled.
Context {U : UnicodeDB}.

Lemma format_file_size_pos (p : positive) :
  format_file_size (PInt (Z.pos p)) =
    match
      (if Z.pos p <? 1024 then
         f ← float_of_int (Z.pos p); Ok (Some (format_2f f ++ lit " " ++ lit "B"))
       else
         f ← float_of_int (Z.pos p);
         size_loop [lit "KB"; lit "MB"; lit "GB"; lit "TB"] (NFloat (fdiv f float_1024)))
    with
    | Ok (Some s) => Ok s
    | Ok None => Ok (lit "Unknown Size")
    | Raise e => Raise e
    end.
Proof.
  unfold format_file_size. cbn [py_int].
  change units with [lit "B"; lit "KB"; lit "MB"; lit "GB"; lit "TB"].
  cbn [size_loop lt_1024 number_format_2f div_1024].
  destruct (Z.pos p <? 1024); unfold mbind, result_bind;
    destruct (float_of_int (Z.pos p)); reflexivity.
Qed.


(** The rendering of a byte count below 1024^5. *)
Lemma format_file_size_render (b : Z) (k : nat) (unit : pystr) :
  0 <= b ->
  units !! k = Some unit ->
  b < 1024 ^ (Z.of_nat k + 1) ->
  k = 0%nat \/ 1024 ^ Z.of_nat k <= b ->
  format_file_size (PInt b) =
    Ok (render_hundredths (nearest_even (100 * b) (1024 ^ Z.of_nat k)) ++ lit " " ++ unit).
Proof.
  intros Hb Hunit Hlt Hge.
  destruct b as [|p|p]; [| |lia].
  + destruct Hge as [->|Hge].
    * injection Hunit as <-. reflexivity.
    * assert (0 < 1024 ^ Z.of_nat k) by (apply Z.pow_pos_nonneg; lia). lia.
  + rewrite format_file_size_pos.
    assert (Hk : (k < 5)%nat) by (apply lookup_lt_Some in Hunit; exact Hunit).
    assert (Hd : Z.pos (digits2_pos p) <= 50).
    { apply digits2_pos_le; [lia|]. eapply Z.lt_le_trans; [exact Hlt|].
      change (2 ^ 50) with (1024 ^ 5). apply Z.pow_le_mono_r; lia. }
    destruct (float_of_Z_exact p) as (m & Hf & Hm53 & Hm); [lia|].
    unfold float_of_int. rewrite Hf. cbn [mbind result_bind].
    destruct k as [|k].
    * replace (Z.pos p <? 1024) with true by (symmetry; apply Z.ltb_lt; exact Hlt).
      injection Hunit as <-. cbn [format_2f sign_str app].
      replace (Z.pos (digits2_pos p) - 53) with (Z.pos (digits2_pos p) - 53 - 10 * 0) by lia.
      rewrite (hundredths_scaled p m 0) by (lia || done).
      replace (Z.pos (digits2_pos p) - 53 - 10 * 0 <? 0) with true
        by (symmetry; apply Z.ltb_lt; lia).
      reflexivity.
    * destruct Hge as [|Hge]; [done|].
      assert (1024 <= Z.pos p).
      { eapply Z.le_trans; [|exact Hge]. change 1024 with (1024 ^ 1) at 1.
        apply Z.pow_le_mono_r; lia. }
      replace (Z.pos p <? 1024) with false by (symmetry; apply Z.ltb_ge; lia).
      rewrite fdiv_1024 by (done || lia).
      rewrite size_loop_float by (done || cbn [length]; lia).
      assert (Hlo : 10 * Z.of_nat (S k) < Z.pos (digits2_pos p)).
      { apply digits2_pos_gt; [lia|]. rewrite Z.pow_mul_r by lia. exact Hge. }
      assert (Hhi : Z.pos (digits2_pos p) <= 10 * (Z.of_nat (S k) + 1)).
      { apply digits2_pos_le; [lia|]. rewrite Z.pow_mul_r by lia. exact Hlt. }
      assert (Hh : forall j, 0 <= j ->
                Z.pos (digits2_pos p) - 53 - 10 * j < 0 ->
                hundredths m (Z.pos (digits2_pos p) - 53 - 10 * j) =
                nearest_even (100 * Z.pos p) (1024 ^ j)).
      { intros j Hj Hneg. rewrite (hundredths_scaled p m j) by (lia || done).
        replace (_ <? 0) with true by (symmetry; apply Z.ltb_lt; lia). reflexivity. }
      destruct k as [|[|[|[|k]]]]; [| | | |lia]; injection Hunit as <-;
        cbn [scaled];
        repeat match goal with
        | |- context [?e <? -42] =>
            first [ replace (e <? -42) with true by (symmetry; apply Z.ltb_lt; lia)
                  | replace (e <? -42) with false by (symmetry; apply Z.ltb_ge; lia) ]
        end;
        cbn [format_2f sign_str app].
      -- replace (Z.pos (digits2_pos p) - 53 - 10)
           with (Z.pos (digits2_pos p) - 53 - 10 * 1) by lia.
         rewrite Hh by lia. reflexivity.
      -- replace (Z.pos (digits2_pos p) - 53 - 10 - 10)
           with (Z.pos (digits2_pos p) - 53 - 10 * 2) by lia.
         rewrite Hh by lia. reflexivity.
      -- replace (Z.pos (digits2_pos p) - 53 - 10 - 10 - 10)
           with (Z.pos (digits2_pos p) - 53 - 10 * 3) by lia.
         rewrite Hh by lia. reflexivity.
      -- replace (Z.pos (digits2_pos p) - 53 - 10 - 10 - 10 - 10)
           with (Z.pos (digits2_pos p) - 53 - 10 * 4) by lia.
         rewrite Hh by lia. reflexivity.
Qed.

Lemma nearest_even_scaled_bound (b : Z) (k : nat) :
  0 <= b -> b < 1024 ^ (Z.of_nat k + 1) ->
  nearest_even (100 * b) (1024 ^ Z.of_nat k) <= 102400.
Proof.
  intros Hb Hlt.
  eapply Z.le_trans; [apply nearest_even_le|].
  assert (0 < 1024 ^ Z.of_nat k) by (apply Z.pow_pos_nonneg; lia).
  assert (100 * b / 1024 ^ Z.of_nat k < 102400); [|lia].
  apply Z.div_lt_upper_bound; [done|].
  rewrite Z.pow_add_r in Hlt by lia. change (1024 ^ 1) with 1024 in Hlt. lia.
Qed.

(** From 1024^5 on, as far as doubles hold integers exactly, no unit is left. *)
Lemma format_file_size_huge (b' : Z) :
  1024 ^ 5 <= b' < 2 ^ 53 -> format_file_size (PInt b') = Ok (lit "Unknown Size").
Proof.
  intros [Hlo Hhi]. destruct b' as [|p|p]; [done| |lia].
  rewrite format_file_size_pos.
  assert (Hd : Z.pos (digits2_pos p) <= 53) by (apply digits2_pos_le; [lia|done]).
  assert (Hd' : 50 < Z.pos (digits2_pos p)).
  { apply digits2_pos_gt; [lia|]. change (2 ^ 50) with (1024 ^ 5). exact Hlo. }
  destruct (float_of_Z_exact p) as (m & Hf & Hm53 & Hm); [lia|].
  unfold float_of_int. rewrite Hf. cbn [mbind result_bind].
  replace (Z.pos p <? 1024) with false
    by (symmetry; apply Z.ltb_ge; change (1024 ^ 5) with 1125899906842624 in Hlo; lia).
  rewrite fdiv_1024 by (done || lia).
  rewrite size_loop_float by (done || cbn [length]; lia).
  cbn [scaled].
  repeat match goal with
  | |- context [?e <? -42] =>
      replace (e <? -42) with false by (symmetry; apply Z.ltb_ge; lia)
  end.
  reflexivity.
Qed.

(** C9, amended: a byte count [b] with [0 <= b < 1024^5] is rendered with
    the unit of the least index [k] such that [b < 1024^(k+1)], and the
    number in front is [b / 1024^k] rounded to two decimals (ties to
    even), which is at most 1024.00; a byte count from [1024^5] up to the
    largest that a double holds exactly is rendered as "Unknown Size". *)
Theorem format_file_size_scaled (b : Z) (k : nat) (unit : pystr) :
  0 <= b ->
  units !! k = Some unit ->
  b < 1024 ^ (Z.of_nat k + 1) ->
  k = 0%nat \/ 1024 ^ Z.of_nat k <= b ->
  format_file_size (PInt b) =
    Ok (render_hundredths (nearest_even (100 * b) (1024 ^ Z.of_nat k)) ++ lit " " ++ unit) /\
  nearest_even (100 * b) (1024 ^ Z.of_nat k) <= 102400 /\
  forall b', 1024 ^ 5 <= b' < 2 ^ 53 -> format_file_size (PInt b') = Ok (lit "Unknown Size").
Proof.
  intros Hb Hunit Hlt Hge. split; [|split].
  - by apply format_file_size_render.
  - by apply nearest_even_scaled_bound.
  - exact format_file_size_huge.
Qed.

(** ** The size string read back by the video-only and audio-only workflows *)

Lemma digit_char r : 0 <= r < 10 -> ascii_digit (Z.to_N (48 + r)).
Proof.
  intros Hr. unfold ascii_digit, between. apply andb_true_iff. rewrite !N.leb_le. lia.
Qed.

Lemma digits_fuel_digits fuel n acc :
  Forall ascii_digit acc -> Forall ascii_digit (digits_fuel fuel n acc).
Proof.
  revert n acc. induction fuel as [|fuel IH]; intros n acc Hacc; cbn [digits_fuel]; [done|].
  assert (Forall ascii_digit (Z.to_N (48 + n mod 10) :: acc)).
  { constructor; [|done]. apply digit_char. apply Z.mod_pos_bound. lia. }
  destruct (n <? 10); [done|]. by apply IH.
Qed.

Lemma digits_fuel_nonempty fuel n acc : acc <> [] -> digits_fuel fuel n acc <> [].
Proof.
  revert n acc. induction fuel as [|fuel IH]; intros n acc Hacc; cbn [digits_fuel]; [done|].
  destruct (n <? 10); [done|]. by apply IH.
Qed.

Lemma decimal_digits_shape n :
  exists c ds, decimal_digits n = c :: ds /\ Forall ascii_digit (c :: ds).
Proof.
  unfold decimal_digits.
  pose proof (digits_fuel_digits (S (Z.to_nat (Z.log2 n))) n [] ltac:(constructor)) as Hd.
  destruct (digits_fuel _ n []) as [|c ds] eqn:E.
  - cbn [digits_fuel] in E. destruct (n <? 10); [discriminate|].
    by apply digits_fuel_nonempty in E.
  - eauto.
Qed.

Lemma ascii_digit_facts c :
  ascii_digit c ->
  isspace c = false /\ (exists d, decimal_value c = Some d) /\
  c <> 43%N /\ c <> 45%N /\ c <> 85%N.
Proof.
  unfold ascii_digit. intros Hc. pose proof Hc as Hb. apply between_spec in Hb.
  unfold isspace, decimal_value. rewrite Hc.
  replace (c <? 128)%N with true by (symmetry; apply N.ltb_lt; lia).
  repeat split; try lia; [|eauto].
  apply orb_false_iff. split; apply not_true_is_false; rewrite between_spec; lia.
Qed.

Lemma scan_digits_stop ds r acc n :
  Forall ascii_digit ds ->
  exists v k, scan_digits acc n (ds ++ 46%N :: r) = (v, k, 46%N :: r).
Proof.
  intros Hds. revert acc n. induction Hds as [|c ds Hc _ IH]; intros acc n.
  - cbn. eauto.
  - cbn [app scan_digits].
    destruct (ascii_digit_facts c Hc) as (_ & (d & ->) & _). apply IH.
Qed.

Lemma scan_sign_other c s : c <> 43%N -> c <> 45%N -> scan_sign (c :: s) = (false, c :: s).
Proof.
  intros H1 H2. unfold scan_sign.
  destruct c as [|p]; [reflexivity|].
  do 6 (try destruct p as [p|p|]); try reflexivity; congruence.
Qed.

Lemma drop_while_keep {A} (p : A -> bool) l :
  Forall (fun x => p x = false) l -> drop_while p l = l.
Proof. intros [|x l' Hx _]; [reflexivity|]. cbn. by rewrite Hx. Qed.

Lemma num_space_isspace c : isspace c = false -> num_space c = false.
Proof.
  unfold isspace, num_space, between. destruct (c <? 128)%N; [|done].
  rewrite !orb_false_iff, !andb_false_iff, !N.leb_gt, N.eqb_neq. lia.
Qed.

Lemma num_strip_nospace s : Forall (fun c => isspace c = false) s -> num_strip s = s.
Proof.
  intros Hs.
  assert (Hn : Forall (fun c => num_space c = false) s)
    by (eapply Forall_impl; [exact Hs|exact num_space_isspace]).
  unfold num_strip. rewrite (drop_while_keep _ s Hn).
  rewrite drop_while_keep by (by apply Forall_reverse).
  apply reverse_involutive.
Qed.

Lemma split_ws_first tok c rest :
  tok <> [] -> Forall (fun c => isspace c = false) tok -> isspace c = true ->
  split_ws (tok ++ c :: rest) = tok :: split_ws rest.
Proof.
  intros Hne Htok Hc. induction tok as [|a tok IH]; [congruence|].
  inversion Htok as [|? ? Ha Htok']; subst.
  cbn [app split_ws]. rewrite Ha.
  destruct tok as [|a' tok].
  - cbn [app]. rewrite Hc. cbn [split_ws]. by rewrite Hc.
  - cbn [app] in *. inversion Htok' as [|? ? Ha' _]; subst. rewrite Ha'.
    by rewrite IH.
Qed.

Lemma str_eqb_head c s d t : c <> d -> str_eqb (c :: s) (d :: t) = false.
Proof. intros H. cbn. apply N.eqb_neq in H. by rewrite H. Qed.

(** A rendered size cannot be read by [int]: the video-only and audio-only
    workflows raise on every size string that is not the sentinel. *)
Lemma plain_total_size_rendered (h : Z) (unit : pystr) :
  plain_total_size (PStr (render_hundredths h ++ lit " " ++ unit)) = Raise ValueError.
Proof.
  unfold render_hundredths.
  destruct (decimal_digits_shape (h / 100)) as (c & ds & -> & Hds).
  set (d1 := Z.to_N (48 + h mod 100 / 10)). set (d2 := Z.to_N (48 + h mod 10)).
  assert (Hd1 : ascii_digit d1).
  { apply digit_char. pose proof (Z.mod_pos_bound h 100 ltac:(lia)).
    split; [apply Z.div_pos; lia|apply Z.div_lt_upper_bound; lia]. }
  assert (Hd2 : ascii_digit d2) by (apply digit_char, Z.mod_pos_bound; lia).
  inversion Hds as [|? ? Hc Hds']; subst.
  destruct (ascii_digit_facts c Hc) as (Hsp & _ & Hc43 & Hc45 & Hc85).
  assert (Hnosp : Forall (fun c => isspace c = false) ((c :: ds) ++ [46%N; d1; d2])).
  { apply Forall_app. split.
    - eapply Forall_impl; [exact Hds|]. intros x Hx. by destruct (ascii_digit_facts x Hx).
    - constructor; [reflexivity|].
      constructor; [by destruct (ascii_digit_facts d1 Hd1)|].
      constructor; [by destruct (ascii_digit_facts d2 Hd2)|constructor]. }
  unfold plain_total_size, py_ne, py_split.
  cbn [app]. change (lit "Unknown Size") with (85%N :: lit "nknown Size").
  rewrite str_eqb_head by done. cbn [negb mbind result_bind].
  change (c :: (ds ++ [46%N; d1; d2]) ++ lit " " ++ unit)
    with (((c :: ds) ++ [46%N; d1; d2]) ++ 32%N :: unit).
  rewrite split_ws_first by (done || reflexivity). cbn [item0 mbind result_bind].
  unfold int_of_str. rewrite num_strip_nospace by done.
  cbn [app]. rewrite scan_sign_other by done.
  change (c :: ds ++ [46%N; d1; d2]) with ((c :: ds) ++ 46%N :: [d1; d2]).
  destruct (scan_digits_stop (c :: ds) [d1; d2] 0 0 Hds) as (v & k & ->).
  by destruct k.
Qed.


(** X6: for every byte count below 1024^5 the size string of the metadata
    makes the size computation of the video-only and the audio-only
    workflow raise a [ValueError]. *)
Lemma plain_total_size_of_size (b : Z) :
  0 <= b < 1024 ^ 5 ->
  exists s, format_file_size (PInt b) = Ok s /\
            plain_total_size (PStr s) = Raise ValueError.
Proof.
  intros [Hb Hlt].
  assert (exists k unit, units !! k = Some unit /\ b < 1024 ^ (Z.of_nat k + 1) /\
                         (k = 0%nat \/ 1024 ^ Z.of_nat k <= b)) as (k & unit & Hu & H1 & H2).
  { destruct (Z.lt_ge_cases b (1024 ^ 1)); [exists 0%nat, (lit "B"); by auto|].
    destruct (Z.lt_ge_cases b (1024 ^ 2)); [exists 1%nat, (lit "KB"); by auto|].
    destruct (Z.lt_ge_cases b (1024 ^ 3)); [exists 2%nat, (lit "MB"); by auto|].
    destruct (Z.lt_ge_cases b (1024 ^ 4)); [exists 3%nat, (lit "GB"); by auto|].
    exists 4%nat, (lit "TB"). by auto. }
  eexists. split; [by apply (format_file_size_render b k unit)|].
  apply plain_total_size_rendered.
Qed.

End Scaled.

(** 1048575 bytes are "1024.00 KB", and 1024^5 bytes have no rendering. *)
Lemma format_file_size_scaled_witness :
  format_file_size (PInt 1048575) = Ok (lit "1024.00 KB") /\
  format_file_size (PInt (1024 ^ 5)) = Ok (lit "Unknown Size").
Proof.
  destruct (format_file_size_scaled 1048575 1 (lit "KB")) as (H1 & _ & H3);
    [lia|reflexivity|reflexivity|right; discriminate|].
  split; [exact H1|]. apply H3. split; [discriminate|reflexivity].
Defined.

(** C9 as stated fails at 1048575 bytes, rendered as "1024.00 KB" (a number
    that is not below 1024), and at 1024^5 bytes, rendered as "Unknown
    Size" (no number at all). *)
Lemma format_file_size_not_below_1024 :
  format_file_size (PInt 1048575) = Ok (lit "1024.00 KB") /\
  ~ renders_below_1024 1048575 /\
  format_file_size (PInt (1024 ^ 5)) = Ok (lit "Unknown Size") /\
  ~ renders_below_1024 (1024 ^ 5).
Proof.
  split; [reflexivity|]. split; [|split; [reflexivity|]].
  - intros (s & tok & unit & x & Hs & Hsplit & _ & Hx & Hlt).
    vm_compute in Hs. injection Hs as <-.
    vm_compute in Hsplit. injection Hsplit as <- <-.
    vm_compute in Hx. injection Hx as <-.
    vm_compute in Hlt. discriminate.
  - intros (s & tok & unit & x & Hs & Hsplit & _ & Hx & Hlt).
    vm_compute in Hs. injection Hs as <-.
    vm_compute in Hsplit. injection Hsplit as <- <-.
    vm_compute in Hx. discriminate.
Qed.

(** * Further properties *)

(** ** Metadata and size strings *)

Section MoreMetadata.
Context {U : UnicodeDB} {E : Externals}.

Lemma drop_while_snoc {A} (p : A -> bool) (l : list A) (x : A) :
  p x = false -> exists l', drop_while p (l ++ [x]) = l' ++ [x].
Proof.
  intros Hx. induction l as [|a l IH].
  - exists []. cbn. by rewrite Hx.
  - cbn. destruct (p a); [exact IH|]. by exists (a :: l).
Qed.

Lemma num_strip_head (c : N) (s : pystr) :
  num_space c = false -> exists s', num_strip (c :: s) = c :: s'.
Proof.
  intros Hc. unfold num_strip. cbn [drop_while]. rewrite Hc.
  rewrite reverse_cons.
  destruct (drop_while_snoc num_space (reverse s) c Hc) as [l' ->].
  exists (reverse l'). by rewrite reverse_app.
Qed.

(** A string that starts with one of the separators U+001C to U+001F is no
    literal for [int], although [str.strip] would remove the separator. *)
Lemma int_of_str_separator (c : N) (s : pystr) :
  (28 <= c <= 31)%N -> isspace c = true /\ int_of_str (c :: s) = Raise ValueError.
Proof.
  intros Hc.
  assert (Hlt : (c <? 128)%N = true) by (apply N.ltb_lt; lia).
  split.
  - unfold isspace, between. rewrite Hlt. apply orb_true_iff. right.
    apply andb_true_iff. rewrite !N.leb_le. lia.
  - assert (Hsp : num_space c = false).
    { unfold num_space, between. rewrite Hlt.
      rewrite orb_false_iff, andb_false_iff, !N.leb_gt, N.eqb_neq. lia. }
    unfold int_of_str. destruct (num_strip_head c s Hsp) as [s' ->].
    rewrite scan_sign_other by lia. cbn [scan_digits].
    assert (Hd : decimal_value c = None).
    { unfold decimal_value, between. rewrite Hlt.
      replace (48 <=? c)%N with false by (symmetry; apply N.leb_gt; lia). done. }
    rewrite Hd. replace (c =? 95)%N with false by (symmetry; apply N.eqb_neq; lia).
    reflexivity.
Qed.
Lemma size_loop_raises us x e : size_loop us x = Raise e -> e = OverflowError.
Proof.
  revert x. induction us as [|u us IH]; intros x; cbn [size_loop]; [discriminate|].
  assert (Hf : forall z e', float_of_int z = Raise e' -> e' = OverflowError).
  { intros z e'. unfold float_of_int. destruct (float_of_Z z); congruence. }
  destruct (lt_1024 x).
  - destruct x as [z|f]; cbn [number_format_2f mbind result_bind]; [|discriminate].
    destruct (float_of_int z) eqn:Hz; [discriminate|]. intros [= <-]. eauto.
  - destruct x as [z|f]; cbn [div_1024 mbind result_bind].
    + destruct (float_of_int z) eqn:Hz; [apply IH|]. intros [= <-]. eauto.
    + apply IH.
Qed.

(** X5: [format_file_size] never lets a [ValueError] out; it raises a
    [TypeError] only for [None], and otherwise only an [OverflowError] (an
    infinite float, or an integer too large for a float). *)
Theorem format_file_size_exceptions (v : pyval) (e : exn) :
  format_file_size v = Raise e ->
  (v = PNone /\ e = TypeError) \/ e = OverflowError.
Proof.
  unfold format_file_size.
  destruct (py_int v) as [n|e'] eqn:Hv.
  - cbn [mbind result_bind]. destruct (size_loop units (NInt n)) as [[s|]|e''] eqn:Hl;
      try discriminate.
    intros [= <-]. right. by apply size_loop_raises in Hl.
  - destruct v as [|b|z|f|s]; cbn [py_int] in Hv; try discriminate.
    + injection Hv as <-. intros [= <-]. by left.
    + destruct f; cbn in Hv; try discriminate; injection Hv as <-.
      * intros [= <-]. by right.
      * discriminate.
    + apply int_of_str_raises in Hv as ->. discriminate.
Qed.

(** X4: the metadata always holds exactly the five keys title, duration,
    filesize, upload_date and resolution; the file size is the string that
    [format_file_size] renders, the date is a string, and the other three
    are the values of the JSON object or their sentinels. *)
Theorem video_info_of_fields (info video_info : gmap pystr pyval) :
  video_info_of info = Ok video_info ->
  exists size date,
    format_file_size (dict_get info "filesize_approx" (PInt 0)) = Ok size /\
    video_info !! lit "filesize" = Some (PStr size) /\
    video_info !! lit "upload_date" = Some (PStr date) /\
    video_info !! lit "title" = Some (dict_get info "title" (PStr (lit "Unknown Title"))) /\
    video_info !! lit "duration" =
      Some (dict_get info "duration_string" (PStr (lit "Unknown Duration"))) /\
    video_info !! lit "resolution" = Some (dict_get info "resolution" (PStr (lit "Unknown"))) /\
    forall key, is_Some (video_info !! key) ->
      key ∈ [lit "title"; lit "duration"; lit "filesize"; lit "upload_date"; lit "resolution"].
Proof.
  unfold video_info_of, mbind, result_bind.
  destruct (match info !! lit "upload_date" with
            | Some (PStr d) => strptime_strftime d
            | Some _ => Raise TypeError
            | None => Ok (lit "Unknown Date")
            end) as [date|]; [|discriminate].
  destruct (format_file_size _) as [size|] eqn:Hsize; [|discriminate].
  intros [= <-]. exists size, date.
  split; [done|]. split.
  { rewrite lookup_insert_ne by done. rewrite lookup_insert_ne by done.
    by rewrite lookup_insert_eq. }
  split.
  { do 3 (rewrite lookup_insert_ne by done). by rewrite lookup_insert_eq. }
  split; [by rewrite lookup_insert_eq|]. split.
  { rewrite lookup_insert_ne by done. by rewrite lookup_insert_eq. }
  split.
  { do 4 (rewrite lookup_insert_ne by done). by rewrite lookup_insert_eq. }
  intros key [v Hv].
  repeat (apply lookup_insert_Some in Hv as [[<- _]|[_ Hv]]; [set_solver|]).
  by rewrite lookup_empty in Hv.
Qed.

(** X7: none of the three workflows checks the metadata: when
    [get_video_info] returns [None], each of them raises a [TypeError] on
    [video_info["title"]] and does nothing else. *)
Theorem workflows_need_metadata (video_url id1 id2 : pystr) (w w1 : world) :
  get_video_info video_url w = (Ok None, w1) ->
  download_video video_url id1 w = (Raise TypeError, w1) /\
  download_audio video_url id1 w = (Raise TypeError, w1) /\
  download_and_merge video_url id1 id2 w = (Raise TypeError, w1).
Proof.
  intros H. repeat split.
  - unfold download_video. unfold mbind at 1, M_bind at 1. by rewrite H.
  - unfold download_audio. unfold mbind at 1, M_bind at 1. by rewrite H.
  - unfold download_and_merge. unfold mbind at 1, M_bind at 1. by rewrite H.
Qed.

End MoreMetadata.

(** ** Names and paths *)

Section Names.
Context {U : UnicodeDB} {E : Externals}.

Lemma sanitize_char_ascii c :
  (sanitize_char c < 128)%N ->
  between 48 57 (sanitize_char c) = true \/ between 65 90 (sanitize_char c) = true \/
  between 97 122 (sanitize_char c) = true \/
  sanitize_char c = 32%N \/ sanitize_char c = 95%N \/ sanitize_char c = 45%N.
Proof.
  intros Hlt. destruct (sanitize_char_safe c) as [Ha|H]; [|tauto].
  unfold isalnum in Ha. apply N.ltb_lt in Hlt. rewrite Hlt in Ha.
  apply orb_true_iff in Ha as [Ha|Ha]; [apply orb_true_iff in Ha as [Ha|Ha]|]; tauto.
Qed.

(** X12: every ASCII character of a sanitized name is a letter, a digit,
    a space, an underscore or a hyphen: no path separator, no dot, no
    control character. *)
Theorem sanitize_filename_ascii (title : pystr) (c : N) :
  c ∈ sanitize_filename title -> (c < 128)%N ->
  ((48 <= c <= 57) \/ (65 <= c <= 90) \/ (97 <= c <= 122) \/
   c = 32 \/ c = 95 \/ c = 45)%N.
Proof.
  intros Hin Hlt. unfold sanitize_filename in Hin.
  apply list_elem_of_In, in_map_iff in Hin as (c0 & <- & _).
  destruct (sanitize_char_ascii c0 Hlt) as [H|[H|[H|H]]];
    rewrite ?between_spec in H; tauto.
Qed.

Lemma sanitize_filename_no_slash (title : pystr) : 47%N ∉ sanitize_filename title.
Proof.
  intros Hin. unfold sanitize_filename in Hin.
  apply list_elem_of_In, in_map_iff in Hin as (c0 & Hc & _).
  assert (Hlt : (sanitize_char c0 < 128)%N) by (rewrite Hc; lia).
  destruct (sanitize_char_ascii c0 Hlt) as [H|[H|[H|H]]];
    rewrite ?between_spec in H; lia.
Qed.

Lemma take_while_all {A} (p : A -> bool) l : forallb p l = true -> take_while p l = l.
Proof.
  induction l as [|x l IH]; cbn; [done|].
  intros H. apply andb_true_iff in H as [-> H]. by rewrite IH.
Qed.

Lemma basename_path_join (dir name : pystr) :
  47%N ∉ name -> basename (path_join dir name) = name.
Proof.
  intros Hname.
  assert (Hns : forallb (fun c => negb (c =? 47)%N) (reverse name) = true).
  { apply forallb_forall. intros c Hc. apply negb_true_iff, N.eqb_neq. intros ->.
    apply Hname. rewrite <- list_elem_of_In, elem_of_reverse in Hc. exact Hc. }
  assert (Hplain : basename name = name).
  { unfold basename. rewrite take_while_all by done. apply reverse_involutive. }
  assert (Hslash : forall pre, basename (pre ++ 47%N :: name) = name).
  { intros pre. unfold basename. rewrite reverse_app, reverse_cons, <- app_assoc.
    cbn [app]. rewrite take_while_app; [apply reverse_involutive|done|reflexivity]. }
  unfold path_join.
  destruct name as [|c name'].
  - destruct (last dir) as [c|] eqn:Hl.
    + apply last_Some in Hl as [pre ->].
      destruct (N.eq_dec c 47%N) as [->|Hc].
      * cbn. rewrite app_nil_r.
        change (pre ++ [47%N]) with (pre ++ 47%N :: []). apply Hslash.
      * replace (match c with 47%N => (pre ++ [c]) ++ [] | _ => (pre ++ [c]) ++ [47%N] ++ [] end)
          with ((pre ++ [c]) ++ 47%N :: []).
        { apply Hslash. }
        destruct c as [|p]; [reflexivity|].
        do 6 (try destruct p as [p|p|]); try reflexivity; congruence.
    + apply last_None in Hl as ->. reflexivity.
  - assert (c <> 47%N) by (intros ->; apply Hname; left).
    replace (match c with 47%N => c :: name' | _ =>
               match last dir with
               | Some 47%N | None => dir ++ c :: name'
               | Some _ => dir ++ [47%N] ++ c :: name'
               end end)
      with (match last dir with
            | Some 47%N | None => dir ++ c :: name'
            | Some _ => dir ++ [47%N] ++ c :: name'
            end).
    2:{ destruct c as [|p]; [reflexivity|].
        do 6 (try destruct p as [p|p|]); try reflexivity; congruence. }
    destruct (last dir) as [d|] eqn:Hl.
    + apply last_Some in Hl as [pre ->].
      destruct (N.eq_dec d 47%N) as [->|Hd].
      * rewrite <- app_assoc. apply Hslash.
      * replace (match d with 47%N => (pre ++ [d]) ++ c :: name' | _ =>
                   (pre ++ [d]) ++ [47%N] ++ c :: name' end)
          with ((pre ++ [d]) ++ 47%N :: c :: name').
        { apply Hslash. }
        destruct d as [|p]; [reflexivity|].
        do 6 (try destruct p as [p|p|]); try reflexivity; congruence.
    + apply last_None in Hl as ->. exact Hplain.
Qed.

End Names.

(** ** The workflows around the download *)

Section MoreWorkflows.
Context {U : UnicodeDB} {E : Externals}.

Lemma keeps_renames_bind {A B} (m : M A) (f : A -> M B) :
  keeps_renames m -> (forall a, keeps_renames (f a)) -> keeps_renames (m ≫= f).
Proof.
  intros Hm Hf w r w1. unfold mbind, M_bind.
  destruct (m w) as [[a|e] w'] eqn:Hw.
  - intros H. rewrite (Hf a _ _ _ H). by apply (Hm _ _ _ Hw).
  - intros [= _ <-]. by apply (Hm _ _ _ Hw).
Qed.

Lemma keeps_renames_lift {A} (r : result A) : keeps_renames (lift r).
Proof. by intros w r' w1 [= _ <-]. Qed.

Lemma keeps_renames_ret {A} (a : A) : keeps_renames (mret a).
Proof. by intros w r' w1 [= _ <-]. Qed.

Lemma keeps_renames_print text : keeps_renames (print text).
Proof.
  intros w r w1 [= _ <-]. cbn. rewrite renames_app. cbn. by rewrite app_nil_r.
Qed.

Lemma keeps_renames_get_video_info video_url : keeps_renames (get_video_info video_url).
Proof. intros w r w1. apply get_video_info_renames. Qed.

Lemma keeps_renames_download command output_path total_size :
  keeps_renames (download_with_progress command output_path total_size).
Proof. intros w r w1. apply download_with_progress_renames. Qed.

Lemma keeps_renames_get_video_formats video_url :
  keeps_renames (get_video_formats video_url).
Proof.
  intros w r w1. unfold get_video_formats, subprocess_run, mbind, M_bind, print, emit.
  destruct (spawn _ _) as [[proc|e] fs1].
  - destruct (negb _).
    + intros [= _ <-]. cbn. rewrite <- app_assoc, renames_app. cbn. by rewrite app_nil_r.
    + rewrite print_format_rows_trace. cbn [w_fs w_trace mret M_ret].
      intros [= _ <-]. cbn [w_trace].
      assert (Hrows : forall rows, renames (map EvPrint rows) = []).
      { induction rows; [done|]. cbn. exact IHrows. }
      rewrite !renames_app, Hrows. cbn. by rewrite !app_nil_r.
  - intros [= _ <-]. cbn. rewrite renames_app. cbn. by rewrite app_nil_r.
Qed.

(** X8: the audio-only and the merge workflow never call [os.rename],
    whatever the tool does: the file keeps the name passed with [-o]. *)
Theorem audio_and_merge_never_rename (video_url id1 id2 : pystr) (w : world) :
  renames (w_trace (snd (download_audio video_url id1 w))) = renames (w_trace w) /\
  renames (w_trace (snd (download_and_merge video_url id1 id2 w))) = renames (w_trace w).
Proof.
  split.
  - destruct (download_audio video_url id1 w) as [r w1] eqn:Hrun. cbn [snd].
    revert w r w1 Hrun. change (keeps_renames (download_audio video_url id1)).
    unfold download_audio.
    repeat first
      [ apply keeps_renames_get_video_info
      | apply keeps_renames_download
      | apply keeps_renames_lift
      | apply keeps_renames_print
      | apply keeps_renames_bind; [|intros ?]
      | match goal with |- keeps_renames (if ?c then _ else _) => destruct c end ].
  - destruct (download_and_merge video_url id1 id2 w) as [r w1] eqn:Hrun. cbn [snd].
    revert w r w1 Hrun. change (keeps_renames (download_and_merge video_url id1 id2)).
    unfold download_and_merge, raise.
    repeat first
      [ apply keeps_renames_get_video_info
      | apply keeps_renames_get_video_formats
      | apply keeps_renames_download
      | apply keeps_renames_lift
      | apply keeps_renames_ret
      | apply keeps_renames_print
      | apply keeps_renames_bind; [|intros ?]
      | match goal with |- keeps_renames (if ?c then _ else _) => destruct c end
      | match goal with |- keeps_renames (match ?c with _ => _ end) => destruct c end ].
Qed.

(** X9: once the download process of the audio-only workflow has exited
    with [code], the workflow prints the success message with the file name
    "<sanitized title>.m4a" when [code] is 0 and the failure message
    otherwise, and leaves the file system as the tool left it. *)
Theorem download_audio_outcome (video_url audio_format_id : pystr) (w w1 w2 : world)
    (video_info : gmap pystr pyval) (title : pystr) (filesize : pyval)
    (total_size code : Z) :
  get_video_info video_url w = (Ok (Some video_info), w1) ->
  video_info !! lit "title" = Some (PStr title) ->
  video_info !! lit "filesize" = Some filesize ->
  plain_total_size filesize = Ok total_size ->
  let audio_output := path_join DOWNLOAD_DIR (sanitize_filename title ++ lit ".m4a") in
  download_with_progress
    [YT_DLP_PATH; lit "-f"; audio_format_id; lit "-o"; audio_output; video_url]
    audio_output total_size w1 = (Ok code, w2) ->
  download_audio video_url audio_format_id w =
    (Ok tt,
     {| w_fs := w_fs w2;
        w_trace := w_trace w2 ++
          [EvPrint (if code =? 0
                    then [NL; check_mark] ++ lit " Audio downloaded successfully as:" ++
                         [NL] ++ sanitize_filename title ++ lit ".m4a"
                    else [NL; cross_mark] ++ lit " Audio download failed.")] |}).
Proof.
  intros Hinfo Htitle Hsize Htotal audio_output Hdl.
  unfold download_audio, mbind at 1 2 3 4 5, M_bind at 1 2 3 4 5, lift.
  rewrite Hinfo. cbn [subscript]. rewrite Htitle. cbn [py_iter].
  rewrite Hsize, Htotal. fold audio_output.
  unfold mbind at 1, M_bind at 1. rewrite Hdl.
  destruct (code =? 0); [|reflexivity].
  unfold audio_output. rewrite basename_path_join; [reflexivity|].
  intros Hin. apply elem_of_app in Hin as [Hin|Hin].
  - by apply sanitize_filename_no_slash in Hin.
  - repeat (apply elem_of_cons in Hin as [Hin|Hin]; [discriminate|]).
    by apply elem_of_nil in Hin.
Qed.

(** X10: when the listing of the formats fails, the merge workflow
    raises an [AttributeError] on [None.split] and starts no download. *)
Theorem merge_needs_listing (video_url id1 id2 : pystr) (w w1 w2 : world)
    (video_info : gmap pystr pyval) (title : pystr) :
  get_video_info video_url w = (Ok (Some video_info), w1) ->
  video_info !! lit "title" = Some (PStr title) ->
  get_video_formats video_url w1 = (Ok None, w2) ->
  download_and_merge video_url id1 id2 w = (Raise AttributeError, w2).
Proof.
  intros Hinfo Htitle Hformats.
  unfold download_and_merge, mbind at 1 2 3 4 5, M_bind at 1 2 3 4 5, lift.
  rewrite Hinfo. cbn [subscript]. rewrite Htitle. cbn [py_iter].
  rewrite Hformats. reflexivity.
Qed.

(** X17: once the tool has run, [get_video_formats] returns [None]
    exactly when the tool exits with a code other than 0, and it then
    prints the error text of the tool and no table. *)
Theorem get_video_formats_none_iff (video_url : pystr) (w : world) (proc : completed)
    (fs' : fs_state) :
  spawn [YT_DLP_PATH; lit "-F"; video_url] (w_fs w) = (Ok proc, fs') ->
  (returncode proc <> 0 ->
   get_video_formats video_url w =
     (Ok None,
      {| w_fs := fs';
         w_trace := w_trace w ++ [EvSpawn [YT_DLP_PATH; lit "-F"; video_url];
                                  EvPrint (cross_mark :: lit " Error: " ++ stderr proc)] |})) /\
  (fst (get_video_formats video_url w) = Ok None <-> returncode proc <> 0).
Proof.
  intros Hs. unfold get_video_formats, subprocess_run, mbind, M_bind, print, emit.
  rewrite Hs. destruct (Z.eqb_spec (returncode proc) 0) as [H0|H0]; cbn [negb].
  - split; [done|]. rewrite print_format_rows_trace. cbn. split; [discriminate|done].
  - split; [|done]. intros _. cbn. by rewrite <- app_assoc.
Qed.

End MoreWorkflows.

(** ** Listing lines, resolutions and percentages *)

Section MoreParsing.
Context {U : UnicodeDB} {E : Externals}.

Lemma find_resolution_unmatched id lines r :
  Forall (fun line => startswith line id = false \/ re_search resolution_re line = None) lines ->
  find_resolution id lines r = r.
Proof.
  induction 1 as [|line lines [Hs|Hr] _ IH]; cbn [find_resolution]; [done| |].
  - by rewrite Hs.
  - rewrite Hr. by destruct (startswith line id).
Qed.

(** X11: the resolution of the merge workflow is the first [WxH] token
    of the last line that starts with the format id and holds such a
    token, whatever the lines before it hold. *)
Theorem find_resolution_last_match (id : pystr) (before after : list pystr)
    (line : pystr) (caps : captures) (r : pystr) :
  startswith line id = true ->
  re_search resolution_re line = Some caps ->
  Forall (fun l => startswith l id = false \/ re_search resolution_re l = None) after ->
  find_resolution id (before ++ line :: after) r = default [] (group caps 1).
Proof.
  intros Hs Hr Hafter. revert r. induction before as [|l before IH]; intros r.
  - cbn [app find_resolution]. rewrite Hs, Hr. by apply find_resolution_unmatched.
  - cbn [app find_resolution].
    destruct (startswith l id); [destruct (re_search resolution_re l)|]; apply IH.
Qed.

(** With a total of 0 every computed size is 0. *)
Lemma progress_size_unknown_total (text : pystr) (n : Z) :
  progress_size text 0 = Ok n -> n = 0.
Proof.
  unfold progress_size, mbind, result_bind.
  destruct (float_of_str text) as [percent|]; [|discriminate].
  change (float_of_int 0) with (Ok (S754_zero false)).
  destruct (fdiv percent float_100) as [s|s| |s m e]; cbn; congruence.
Qed.

(** X18: a line of the listing that is empty or does not start with a
    decimal digit (a header, a rule, a storyboard row) gives no table
    row. *)
Theorem non_digit_lines_skipped (line : pystr) :
  match line with
  | [] => True
  | c :: _ => isdecimal c = false
  end ->
  row_of_line line = None.
Proof.
  intros Hhead. unfold row_of_line.
  destruct (re_match format_line_re line) as [caps|] eqn:Hm; [|done].
  apply format_line_id in Hm as [_ Hne].
  destruct line as [|c line]; [done|]. cbn in Hne. by rewrite Hhead in Hne.
Qed.

(** X15: with a total size of 0 (unknown size) the progress loop, when
    it runs to its end, leaves the downloaded size at 0 and updates the
    bar by 0 only. *)
Theorem progress_loop_unknown_total (lines : list pystr) (w w' : world) (d : Z) :
  progress_loop 0 lines 0 w = (Ok d, w') ->
  d = 0 /\ w_fs w' = w_fs w /\
  exists k, w_trace w' = w_trace w ++ replicate k (EvBarUpdate 0).
Proof.
  revert w. induction lines as [|line lines IH]; intros w; cbn [progress_loop].
  - intros [= <- <-]. repeat split. exists 0%nat. cbn. by rewrite app_nil_r.
  - destruct (re_search percent_re line) as [caps|]; [|apply IH].
    unfold mbind, M_bind, lift, emit.
    destruct (progress_size _ 0) as [n|] eqn:Hn; [|discriminate].
    apply progress_size_unknown_total in Hn as ->.
    intros H. apply IH in H as (-> & Hfs & k & Hk). cbn in Hfs, Hk.
    repeat split; [done|]. exists (S k). rewrite Hk, <- app_assoc. reflexivity.
Qed.

Lemma re_search_match r s caps :
  re_search r s = Some caps -> exists s', re_match r s' = Some caps.
Proof.
  induction s as [|c s IH]; cbn [re_search].
  - destruct (re_match r []) eqn:Hm; [|discriminate]. intros [= <-]. eauto.
  - destruct (re_match r (c :: s)) eqn:Hm; [intros [= <-]; eauto|]. apply IH.
Qed.

Lemma matches_chr_inv p s caps s' caps' :
  matches (Chr p) s caps s' caps' -> exists c, s = c :: s' /\ p c = true /\ caps' = caps.
Proof. inversion 1; subst. eauto. Qed.

Lemma matches_opt_inv r s caps s' caps' :
  matches (Opt r) s caps s' caps' ->
  matches r s caps s' caps' \/ (s' = s /\ caps' = caps).
Proof. inversion 1; subst; eauto. Qed.

(** The text of the first group of [percent_re]: one to three digits, and
    possibly a dot followed by digits. *)
Lemma percent_re_text s caps :
  re_match percent_re s = Some caps ->
  exists ip fp,
    group caps 1 = Some (ip ++ fp) /\ ip <> [] /\ forallb isdecimal ip = true /\
    (fp = [] \/ exists f fs, fp = 46%N :: f :: fs /\ forallb isdecimal (f :: fs) = true).
Proof.
  unfold re_match. intros H.
  apply rmatch_sound in H as (s' & caps' & Hm & [= <-]).
  unfold percent_re in Hm.
  apply matches_cat_inv in Hm as (s1 & caps1 & Hg & Hpct).
  apply matches_chr_inv in Hpct as (pc & -> & _ & ->).
  apply matches_group_inv in Hg as (caps0 & Hbody & ->).
  apply matches_cat_inv in Hbody as (s2 & caps2 & Hint & Hfrac).
  assert (Hip : exists ip, s = ip ++ s2 /\ ip <> [] /\ forallb isdecimal ip = true /\
                           caps2 = no_captures).
  { apply matches_cat_inv in Hint as (t1 & c1 & Hd1 & Hrest).
    apply matches_chr_inv in Hd1 as (a & -> & Ha & ->).
    apply matches_opt_inv in Hrest as [Hrest|[-> ->]].
    - apply matches_cat_inv in Hrest as (t2 & c2 & Hd2 & Hrest).
      apply matches_chr_inv in Hd2 as (b & -> & Hb & ->).
      apply matches_opt_inv in Hrest as [Hd3|[-> ->]].
      + apply matches_chr_inv in Hd3 as (c & -> & Hc & ->).
        exists [a; b; c]. cbn. by rewrite Ha, Hb, Hc.
      + exists [a; b]. cbn. by rewrite Ha, Hb.
    - exists [a]. cbn. by rewrite Ha. }
  destruct Hip as (ip & -> & Hne & Hdig & ->).
  assert (Hfp : exists fp, s2 = fp ++ pc :: s' /\ caps0 = no_captures /\
                  (fp = [] \/ exists f fs, fp = 46%N :: f :: fs /\
                                           forallb isdecimal (f :: fs) = true)).
  { apply matches_opt_inv in Hfrac as [Hfrac|[<- <-]].
    - apply matches_cat_inv in Hfrac as (t1 & c1 & Hdot & Hds).
      apply matches_chr_inv in Hdot as (dot & -> & Hdot & ->).
      apply N.eqb_eq in Hdot as <-.
      apply matches_plus_chr in Hds as (-> & f & fs & -> & Hf & Hfs).
      exists (46%N :: f :: fs). split; [reflexivity|]. split; [done|].
      right. exists f, fs. cbn. by rewrite Hf, Hfs.
    - exists []. eauto. }
  destruct Hfp as (fp & -> & -> & Hfp).
  exists ip, fp. split; [|done].
  unfold group. rewrite list_lookup_insert_eq by (cbn; lia). cbn [default].
  f_equal. rewrite !length_app.
  replace (length ip + (length fp + length (pc :: s')) - length (pc :: s'))%nat
    with (length (ip ++ fp)) by (rewrite length_app; lia).
  by rewrite app_assoc, take_app_length.
Qed.

Lemma isdecimal_range c : isdecimal c = true -> (48 <= c <= 57 \/ 128 <= c)%N.
Proof.
  unfold isdecimal, decimal_value. destruct (N.ltb_spec c 128); [|lia].
  destruct (between 48 57 c) eqn:Hb; [|discriminate]. apply between_spec in Hb. lia.
Qed.

Lemma isdecimal_value c : isdecimal c = true -> exists d, decimal_value c = Some d.
Proof. unfold isdecimal. destruct (decimal_value c); [eauto|discriminate]. Qed.

Lemma lower_decimal c : isdecimal c = true -> lower c = c.
Proof.
  intros H. apply isdecimal_range in H. unfold lower.
  destruct (between 65 90 c) eqn:Hb; [|done]. apply between_spec in Hb. lia.
Qed.

Lemma scan_digits_run ds rest acc n :
  forallb isdecimal ds = true ->
  match rest with
  | [] => True
  | c :: _ => decimal_value c = None /\ c <> 95%N
  end ->
  exists v, scan_digits acc n (ds ++ rest) = (v, (n + length ds)%nat, rest).
Proof.
  intros Hds Hrest. revert acc n. induction ds as [|c ds IH]; intros acc n.
  - cbn [app length]. rewrite Nat.add_0_r. destruct rest as [|c rest]; [by eexists|].
    destruct Hrest as [Hc H95]. cbn [scan_digits]. rewrite Hc.
    apply N.eqb_neq in H95. rewrite H95. cbn [andb]. by eexists.
  - cbn [forallb] in Hds. apply andb_true_iff in Hds as [Hc Hds].
    cbn [app scan_digits length]. destruct (isdecimal_value c Hc) as [d ->].
    destruct (IH Hds (10 * acc + d) (S n)) as [v ->].
    exists v. do 2 f_equal. lia.
Qed.

Lemma percent_text_parses ip fp :
  ip <> [] -> forallb isdecimal ip = true ->
  (fp = [] \/ exists f fs, fp = 46%N :: f :: fs /\ forallb isdecimal (f :: fs) = true) ->
  exists x, float_of_str (ip ++ fp) = Ok x.
Proof.
  intros Hne Hip Hfp. destruct ip as [|a ip]; [done|].
  assert (Ha : isdecimal a = true) by (cbn in Hip; by apply andb_true_iff in Hip as [? _]).
  pose proof (isdecimal_range a Ha) as Hrange.
  assert (Hnosp : Forall (fun c => isspace c = false) ((a :: ip) ++ fp)).
  { apply Forall_app. split.
    - apply Forall_forall. intros c Hc. apply isdecimal_not_space.
      rewrite forallb_forall in Hip. apply Hip. by apply list_elem_of_In.
    - destruct Hfp as [->|(f & fs & -> & Hfs)]; [constructor|].
      constructor; [reflexivity|].
      apply Forall_forall. intros c Hc. apply isdecimal_not_space.
      rewrite forallb_forall in Hfs. apply Hfs. by apply list_elem_of_In. }
  unfold float_of_str. rewrite num_strip_nospace by done.
  cbn [app]. rewrite scan_sign_other by lia.
  cbn [map]. rewrite (lower_decimal a Ha).
  change (lit "inf") with (105%N :: lit "nf").
  change (lit "infinity") with (105%N :: lit "nfinity").
  change (lit "nan") with (110%N :: lit "an").
  rewrite !str_eqb_head by lia. cbn [orb].
  change (a :: ip ++ fp) with ((a :: ip) ++ fp).
  destruct Hfp as [->|(f & fs & -> & Hfs)].
  - destruct (scan_digits_run (a :: ip) [] 0 0 Hip I) as [v ->].
    cbn [Nat.add length scan_exponent]. eauto.
  - destruct (scan_digits_run (a :: ip) (46%N :: f :: fs) 0 0 Hip) as [v ->];
      [split; [reflexivity|done]|].
    rewrite <- (app_nil_r (f :: fs)).
    destruct (scan_digits_run (f :: fs) [] v 0 Hfs I) as [v' ->].
    cbn [Nat.add length scan_exponent]. eauto.
Qed.

(** X14: the text that the percentage pattern captures is always a
    literal that [float] accepts: the conversion in the progress loop
    cannot raise a [ValueError]. *)
Theorem percent_text_is_a_float (line : pystr) (caps : captures) :
  re_search percent_re line = Some caps ->
  exists x, float_of_str (default [] (group caps 1)) = Ok x.
Proof.
  intros H. apply re_search_match in H as [s Hm].
  apply percent_re_text in Hm as (ip & fp & -> & Hne & Hip & Hfp).
  cbn [default]. by apply percent_text_parses.
Qed.

Lemma float_of_str_raises s e : float_of_str s = Raise e -> e = ValueError.
Proof.
  unfold float_of_str.
  destruct (scan_sign (num_strip s)) as [neg body].
  destruct (_ || _); [discriminate|]. destruct (str_eqb _ _); [discriminate|].
  destruct (scan_digits 0 0 body) as [[ip ni] r1].
  destruct (match r1 with 46%N :: r => scan_digits ip 0 r | _ => (ip, 0%nat, r1) end)
    as [[fp nf] r2].
  destruct (ni + nf)%nat; [congruence|]. destruct (scan_exponent r2); congruence.
Qed.

Lemma split_ws_nonempty s c : c ∈ s -> isspace c = false -> split_ws s <> [].
Proof.
  intros Hin Hc. induction s as [|a s IH]; [by apply elem_of_nil in Hin|].
  cbn [split_ws]. destruct (isspace a) eqn:Ha.
  - apply IH. apply elem_of_cons in Hin as [->|Hin]; [congruence|done].
  - destruct s as [|b s]; [done|]. destruct (isspace b); [done|].
    by destruct (split_ws (b :: s)).
Qed.

Lemma contains_head s c sub : contains s (c :: sub) = true -> c ∈ s.
Proof.
  induction s as [|a s IH]; cbn [contains startswith]; [discriminate|].
  intros H. apply orb_true_iff in H as [H|H].
  - apply andb_true_iff in H as [H _]. apply N.eqb_eq in H as ->. left.
  - right. by apply IH.
Qed.

(** X16: the size conversion of the merge workflow never raises on a
    string, and gives the integer 0 for every string without "MB" and
    "GB". *)
Theorem merge_total_size_total (s : pystr) :
  (exists n, merge_total_size (PStr s) = Ok n) /\
  (contains s (lit "MB") = false -> contains s (lit "GB") = false ->
   merge_total_size (PStr s) = Ok (NInt 0)).
Proof.
  assert (Hscaled : forall k c sub, contains s (c :: sub) = true -> isspace c = false ->
            exists n, except_ValueError (scaled_size (PStr s) k) (NInt 0) = Ok n).
  { intros k c sub Hc Hsp. unfold scaled_size. cbn [py_split mbind result_bind].
    destruct (split_ws s) as [|tok ws] eqn:Hs.
    - exfalso. apply contains_head in Hc. by apply (split_ws_nonempty s c).
    - cbn [item0]. unfold mbind, result_bind.
      destruct (float_of_str tok) as [f|e] eqn:Hf.
      + unfold except_ValueError. eauto.
      + apply float_of_str_raises in Hf as ->. unfold except_ValueError. eauto. }
  unfold merge_total_size. cbn [py_contains mbind result_bind]. split.
  - destruct (contains s (lit "MB")) eqn:Hmb.
    + apply (Hscaled 2%nat 77%N (lit "B")); [exact Hmb|reflexivity].
    + destruct (contains s (lit "GB")) eqn:Hgb; [|eauto].
      apply (Hscaled 3%nat 71%N (lit "B")); [exact Hgb|reflexivity].
  - by intros -> ->.
Qed.

Lemma matches_consumed P r s caps s' caps' :
  classes_in P r -> matches r s caps s' caps' ->
  exists pre, s = pre ++ s' /\ Forall P pre.
Proof.
  intros Hr Hm. induction Hm as [p c s caps Hp| r1 r2 s caps s1 caps1 s2 caps2 _ IH1 _ IH2
                 | r s caps s' caps' _ IH | | | r s caps s1 caps1 s2 caps2 _ IH1 _ IH2
                 | i r s caps s' caps' _ IH]; cbn [classes_in] in Hr.
  - exists [c]. split; [done|]. constructor; [by apply Hr|constructor].
  - destruct Hr as [Hr1 Hr2].
    destruct (IH1 Hr1) as (p1 & -> & H1). destruct (IH2 Hr2) as (p2 & -> & H2).
    exists (p1 ++ p2). split; [by rewrite app_assoc|by apply Forall_app].
  - by apply IH.
  - by exists [].
  - by exists [].
  - destruct (IH1 Hr) as (p1 & -> & H1). destruct (IH2 Hr) as (p2 & -> & H2).
    exists (p1 ++ p2). split; [by rewrite app_assoc|by apply Forall_app].
  - by apply IH.
Qed.

(** The token found by [resolution_re] holds digits and the letter x. *)
Lemma resolution_re_text line caps :
  re_search resolution_re line = Some caps ->
  exists text, group caps 1 = Some text /\
               Forall (fun c => isdecimal c = true \/ c = 120%N) text.
Proof.
  intros H. apply re_search_match in H as [s Hm]. unfold re_match in Hm.
  apply rmatch_sound in Hm as (s' & caps' & Hm & [= <-]).
  unfold resolution_re in Hm.
  apply matches_group_inv in Hm as (caps0 & Hm & ->).
  pose proof (matches_other_groups _ _ _ _ _ 1 Hm eq_refl) as Hlen.
  apply (matches_consumed (fun c => isdecimal c = true \/ c = 120%N)) in Hm
    as (pre & -> & Hpre).
  - exists pre. split; [|done]. unfold group.
    rewrite list_lookup_insert_eq by (eapply lookup_lt_Some; exact Hlen).
    cbn [default]. f_equal. rewrite length_app.
    replace (length pre + length s' - length s')%nat with (length pre) by lia.
    by rewrite take_app_length.
  - cbn [classes_in d_ ch]. unfold d_, ch. cbn [classes_in].
    repeat split; try (intros c Hc; by left).
    intros c Hc. apply N.eqb_eq in Hc. by right.
Qed.

Lemma find_resolution_chars (P : pystr -> Prop) id lines r :
  P r ->
  (forall line caps, re_search resolution_re line = Some caps ->
                     P (default [] (group caps 1))) ->
  P (find_resolution id lines r).
Proof.
  intros Hr Hstep. revert r Hr. induction lines as [|line lines IH]; intros r Hr; [done|].
  cbn [find_resolution]. destruct (startswith line id); [|by apply IH].
  destruct (re_search resolution_re line) as [caps|] eqn:Hs; [|by apply IH].
  apply IH. by apply (Hstep line).
Qed.

(** X13: the file name of the merge output, "<sanitized
    title>_(<resolution>).mp4", holds no path separator, so the name that
    the success message prints is the last component of the path passed
    with [-o]. *)
Theorem merge_output_name (title id : pystr) (format_details : list pystr) :
  let download_title :=
    merge_safe_title title ++ lit "_(" ++
    find_resolution id format_details (lit "UnknownRes") ++ lit ")" in
  (47%N ∉ download_title ++ lit ".mp4") /\
  basename (path_join DOWNLOAD_DIR (download_title ++ lit ".mp4")) =
    download_title ++ lit ".mp4".
Proof.
  intros download_title.
  assert (Hname : 47%N ∉ download_title ++ lit ".mp4").
  { unfold download_title. rewrite !elem_of_app. intros [[Ht|[Hp|[Hres|Hp]]]|Hp].
    - rewrite merge_safe_title_eq in Ht. by apply sanitize_filename_no_slash in Ht.
    - repeat (apply elem_of_cons in Hp as [Hp|Hp]; [discriminate|]).
      by apply elem_of_nil in Hp.
    - revert Hres. apply (find_resolution_chars (fun r => 47%N ∉ r)).
      + intros Hp. repeat (apply elem_of_cons in Hp as [Hp|Hp]; [discriminate|]).
        by apply elem_of_nil in Hp.
      + intros line caps Hs Hin.
        apply resolution_re_text in Hs as (text & Hg & Htext).
        rewrite Hg in Hin. cbn [default] in Hin.
        rewrite Forall_forall in Htext. destruct (Htext _ Hin) as [Hd|Hx]; [|done].
        apply isdecimal_range in Hd. lia.
    - repeat (apply elem_of_cons in Hp as [Hp|Hp]; [discriminate|]).
      by apply elem_of_nil in Hp.
    - repeat (apply elem_of_cons in Hp as [Hp|Hp]; [discriminate|]).
      by apply elem_of_nil in Hp. }
  split; [done|]. by apply basename_path_join.
Qed.

(** X19: when the child process starts and every percentage of its
    output gives a size, [download_with_progress] returns the exit code of
    the process, after opening the bar with the total, updating it by the
    successive differences and closing it. *)
Theorem download_with_progress_trace (command : list pystr) (output_path : pystr)
    (total_size : Z) (w : world) (proc : completed) (fs' : fs_state) (sizes : list Z) :
  spawn command (w_fs w) = (Ok proc, fs') ->
  Forall2 (fun p n => progress_size p total_size = Ok n)
    (omap percent_of_line (lines_of (stdout proc))) sizes ->
  download_with_progress command output_path total_size w =
    (Ok (returncode proc),
     {| w_fs := fs';
        w_trace := w_trace w ++ [EvSpawn command; EvBarOpen total_size] ++
                   map EvBarUpdate (diffs 0 sizes) ++ [EvBarClose] |}).
Proof.
  intros Hs Hsizes.
  unfold download_with_progress, subprocess_run, mbind, M_bind, emit.
  rewrite Hs. cbn [w_fs w_trace].
  rewrite (progress_loop_sizes total_size _ 0 _ sizes Hsizes).
  cbn [w_fs w_trace mret M_ret]. do 2 f_equal.
  rewrite <- !app_assoc. reflexivity.
Qed.

End MoreParsing.

(** * Instances of the further properties *)

(** [int] skips the whitespace of [str.isspace] other than the four
    separators, counts digits without underscores, and refuses more than
    4300 of them. *)
Lemma int_of_str_examples :
  int_of_str [160; 55; 133]%N = Ok 7 /\
  int_of_str [9; 45; 55; 32]%N = Ok (-7) /\
  int_of_str [55; 31]%N = Raise ValueError /\
  int_of_str (lit "1_000") = Ok 1000 /\
  int_of_str (lit "1__0") = Raise ValueError /\
  (exists z, int_of_str (repeat 49%N 4300) = Ok z) /\
  int_of_str (repeat 49%N 4301) = Raise ValueError /\
  float_of_str [28; 55]%N = Raise ValueError /\
  float_of_str [160; 55]%N = Ok (float_of_Z 7).
Proof.
  split; [by_evaluation|]. split; [by_evaluation|]. split; [by_evaluation|].
  split; [by_evaluation|]. split; [by_evaluation|].
  split; [eexists; vm_compute; reflexivity|].
  split; [by_evaluation|]. split; by_evaluation.
Qed.

(** The tool answers with text that is not JSON: the explicit failure. *)
Lemma get_video_info_none_iff_witness :
  fst (get_video_info url (start garbled)) = Ok None <->
  0 <> 0 \/ @json_loads (sample_externals garbled) (lit "JSON") = None.
Proof.
  exact (get_video_info_none_iff url (start garbled)
           {| returncode := 0; stdout := lit "JSON"; stderr := [] |} ∅ eq_refl).
Defined.

(** The metadata of an empty JSON object holds the four sentinels. *)
Lemma video_info_of_defaults_witness :
  bare_video_info !! lit "title" = Some (PStr (lit "Unknown Title")) /\
  bare_video_info !! lit "duration" = Some (PStr (lit "Unknown Duration")) /\
  bare_video_info !! lit "upload_date" = Some (PStr (lit "Unknown Date")) /\
  bare_video_info !! lit "resolution" = Some (PStr (lit "Unknown")).
Proof.
  assert (Hv : video_info_of (E := sample_externals quiet) ∅ = Ok bare_video_info)
    by by_evaluation.
  pose proof (video_info_of_defaults (E := sample_externals quiet) ∅ bare_video_info Hv)
    as (H1 & H2 & H3 & H4).
  split; [apply H1 | split; [apply H2 | split; [apply H3 | apply H4]]]; by_evaluation.
Defined.

(** An object with a title and a date stays accepted without its date. *)
Lemma video_info_of_missing_witness :
  exists video_info',
    video_info_of (E := sample_externals quiet) (delete (lit "upload_date") dated_info) =
      Ok video_info'.
Proof.
  apply (video_info_of_missing (E := sample_externals quiet) dated_info
           (<[lit "upload_date" := PStr (lit "2024-01-31")]> titled_video_info)
           "upload_date").
  - by_evaluation.
  - right. right. left. reflexivity.
Defined.

(** The size and the date of the metadata of an empty JSON object. *)
Lemma video_info_of_fields_witness :
  exists size date,
    format_file_size (PInt 0) = Ok size /\
    bare_video_info !! lit "filesize" = Some (PStr size) /\
    bare_video_info !! lit "upload_date" = Some (PStr date).
Proof.
  assert (Hv : video_info_of (E := sample_externals quiet) ∅ = Ok bare_video_info)
    by by_evaluation.
  pose proof (video_info_of_fields (E := sample_externals quiet) ∅ bare_video_info Hv)
    as (size & date & H1 & H2 & H3 & _).
  exists size, date. exact (conj H1 (conj H2 H3)).
Defined.

(** [None] is the value on which the [TypeError] is raised. *)
Lemma format_file_size_exceptions_witness :
  (PNone = PNone /\ TypeError = TypeError) \/ TypeError = OverflowError.
Proof.
  exact (format_file_size_exceptions (U := sample_unicode) PNone TypeError eq_refl).
Defined.

(** A size of 3428679 bytes gives a string that [int] rejects. *)
Lemma plain_total_size_of_size_witness :
  exists s, format_file_size (PInt 3428679) = Ok s /\
            plain_total_size (PStr s) = Raise ValueError.
Proof. apply (plain_total_size_of_size (U := sample_unicode) 3428679). lia. Defined.

(** Without JSON none of the three workflows gets past the title. *)
Lemma workflows_need_metadata_witness :
  fst (download_video url (lit "22") (start garbled)) = Raise TypeError /\
  fst (download_audio url (lit "22") (start garbled)) = Raise TypeError /\
  fst (download_and_merge url (lit "22") (lit "140") (start garbled)) = Raise TypeError.
Proof.
  destruct (workflows_need_metadata url (lit "22") (lit "140") (start garbled)
              (snd (get_video_info url (start garbled)))
              ltac:(vm_compute; reflexivity)) as (H1 & H2 & H3).
  exact (conj (f_equal fst H1) (conj (f_equal fst H2) (f_equal fst H3))).
Defined.

(** An audio download that exits with 1 ends with the failure message. *)
Lemma download_audio_outcome_witness :
  exists w',
    download_audio url (lit "140") (start (unsized 1)) = (Ok tt, w') /\
    last (w_trace w') = Some (EvPrint ([NL; cross_mark] ++ lit " Audio download failed.")).
Proof.
  pose (w1 := snd (get_video_info url (start (unsized 1)))).
  pose (audio_output := path_join (@DOWNLOAD_DIR (sample_externals (unsized 1))) (sanitize_filename (lit "Test Video!") ++ lit ".m4a")).
  pose (command := [YT_DLP_PATH; lit "-f"; lit "140"; lit "-o"; audio_output; url]).
  pose (w2 := snd (download_with_progress command audio_output 0 w1)).
  eexists. split.
  - refine (download_audio_outcome url (lit "140") (start (unsized 1)) w1 w2
              unsized_video_info (lit "Test Video!") (PStr (lit "Unknown Size")) 0 1
              _ _ _ _ _); by_evaluation.
  - by_evaluation.
Defined.

(** With a failing listing the merge workflow stops on [None.split]. *)
Lemma merge_needs_listing_witness :
  fst (download_and_merge url (lit "137") (lit "140") (start no_listing)) =
    Raise AttributeError.
Proof.
  pose (w1 := snd (get_video_info url (start no_listing))).
  pose (w2 := snd (get_video_formats url w1)).
  refine (f_equal fst
            (merge_needs_listing url (lit "137") (lit "140") (start no_listing) w1 w2
               titled_video_info (lit "Test Video!") _ _ _)); by_evaluation.
Defined.

(** For the id "22" the resolution is that of the row of format 229. *)
Lemma find_resolution_last_match_witness :
  find_resolution (lit "22") listing_lines (lit "UnknownRes") = lit "426x240".
Proof.
  refine (find_resolution_last_match (U := sample_unicode)
            (lit "22") (take 7 listing_lines) (drop 8 listing_lines)
            (lit "229 mp4   426x240    30   |   5.11MiB 210k m3u8  | avc1.4D4015 video only")
            [None; Some (lit "426x240"); None; None; None; None; None]
            (lit "UnknownRes") _ _ _).
  - vm_compute. reflexivity.
  - vm_compute. reflexivity.
  - repeat constructor.
Defined.

(** The underscore that replaces the slash of "a/b". *)
Lemma sanitize_filename_ascii_witness :
  ((48 <= 95 <= 57) \/ (65 <= 95 <= 90) \/ (97 <= 95 <= 122) \/
   95 = 32 \/ 95 = 95 \/ 95 = 45)%N.
Proof.
  apply (sanitize_filename_ascii (U := sample_unicode) (lit "a/b") 95%N).
  - apply elem_of_cons. right. apply elem_of_cons. left. reflexivity.
  - reflexivity.
Defined.

(** The percentage "45.3" of a progress line converts. *)
Lemma percent_text_is_a_float_witness :
  exists x, float_of_str (U := sample_unicode) (lit "45.3") = Ok x.
Proof.
  refine (percent_text_is_a_float (U := sample_unicode)
            (lit "[download]  45.3% of 15.00MiB")
            [None; Some (lit "45.3"); None; None; None; None; None] _).
  vm_compute. reflexivity.
Defined.

(** The sample progress lines with an unknown total: updates by 0 only. *)
Lemma progress_loop_unknown_total_witness :
  exists k,
    w_trace (snd (progress_loop 0 progress_lines 0 (start quiet))) =
      replicate k (EvBarUpdate 0).
Proof.
  assert (Hl : progress_loop 0 progress_lines 0 (start quiet) =
               (Ok 0, snd (progress_loop 0 progress_lines 0 (start quiet))))
    by by_evaluation.
  pose proof (progress_loop_unknown_total progress_lines (start quiet) _ 0 Hl)
    as (_ & _ & k & Hk).
  exists k. exact Hk.
Defined.

(** A listing that exits with 1 gives [None]. *)
Lemma get_video_formats_none_iff_witness :
  fst (get_video_formats url (start no_listing)) = Ok None <-> 1 <> 0.
Proof.
  exact (proj2 (get_video_formats_none_iff url (start no_listing)
                  (sc_listing no_listing) ∅ eq_refl)).
Defined.

(** The storyboard row of the sample listing gives no table row. *)
Lemma non_digit_lines_skipped_witness :
  @row_of_line sample_unicode
    (lit "sb0 mhtml 48x27         0 |                mhtml | images      storyboard") = None.
Proof. apply non_digit_lines_skipped. reflexivity. Defined.

(** A download of 15 MiB reported at 50% and at 100%. *)
Lemma download_with_progress_trace_witness :
  let output_path := lit "/tmp/clip.mp4" in
  let command := [YT_DLP_PATH; lit "-f"; lit "22"; lit "-o"; output_path; url] in
  download_with_progress command output_path 15728640 (start (clip 0)) =
    (Ok 0,
     {| w_fs := <[output_path := lit "media"]> ∅;
        w_trace := [EvSpawn command; EvBarOpen 15728640; EvBarUpdate 7864320;
                    EvBarUpdate 7864320; EvBarClose] |}).
Proof.
  intros output_path command.
  assert (Hs : spawn command (w_fs (start (clip 0))) =
               (Ok (sc_download (clip 0)), <[output_path := lit "media"]> ∅))
    by (vm_compute; reflexivity).
  assert (Hl : omap percent_of_line (lines_of (stdout (sc_download (clip 0)))) =
               [lit "50.0"; lit "100"])
    by (vm_compute; reflexivity).
  assert (Hp : Forall2 (fun p n => progress_size p 15728640 = Ok n)
                 (omap percent_of_line (lines_of (stdout (sc_download (clip 0)))))
                 [7864320; 15728640]).
  { rewrite Hl. constructor; [vm_compute; reflexivity|].
    constructor; [vm_compute; reflexivity|]. constructor. }
  refine (eq_trans (download_with_progress_trace command output_path 15728640
                      (start (clip 0)) _ _ _ Hs Hp) _).
  vm_compute. reflexivity.
Defined.
